(** * Device profile application layer of core-metadata (edgex-go)

    Shallow embedding of [internal/core/metadata/application] (device
    profile operations) and of the notification service's
    [ConfigurationStruct] raw-update methods.

    Modelling conventions:
    - a Go [errors.EdgeX] is the inductive [edgex]: either a fresh
      [NewCommonEdgeX kind message] or a [NewCommonEdgeXWrapper] around
      another error; [Kind] follows the wrapped chain as the contracts
      library does;
    - a Go function returning [errors.EdgeX] returns [option edgex]
      ([None] is [nil]); a DB call returning [(T, errors.EdgeX)] returns
      [result T];
    - the DB client ([interfaces.DBClient]) is an interface over an
      abstract store state; every call is recorded in an effect trace, as
      are unit validations and the [go publish...] dispatches, so that
      "the store's delete is never invoked" is a statement about the trace;
    - a nil-pointer dereference is a Go panic: the computation yields
      [None] in the [M] monad. *)

From Stdlib Require Import String List ZArith Bool Lia.
Import ListNotations.
Open Scope string_scope.
Open Scope Z_scope.

(** ** Errors (go-mod-core-contracts/errors) *)

Inductive ErrKind :=
| KindUnknown
| KindContractInvalid
| KindStatusConflict
| KindServiceLocked
| KindEntityDoesNotExist
| KindRangeNotSatisfiable
| KindDatabaseError.

Inductive edgex :=
| NewCommonEdgeX (k : ErrKind) (msg : string)
| NewCommonEdgeXWrapper (inner : edgex).

(** [errors.Kind]: a wrapper takes the kind of the error it wraps. *)
Fixpoint Kind (e : edgex) : ErrKind :=
  match e with
  | NewCommonEdgeX k _ => k
  | NewCommonEdgeXWrapper inner => Kind inner
  end.

Inductive result (A : Type) :=
| Ok (a : A)
| Err (e : edgex).
Arguments Ok {A} a.
Arguments Err {A} e.

(** ** Models (go-mod-core-contracts/models) *)

Record DeviceResource := mkDeviceResource {
  dr_Name : string;
  dr_Units : string  (* Properties.Units *)
}.

Record DeviceProfile := mkDeviceProfile {
  Id : string;
  Name : string;
  Description : string;
  Manufacturer : string;
  Model : string;
  Labels : list string;
  DeviceResources : list DeviceResource
}.

Record Device := mkDevice {
  Device_Name : string;
  Device_ProfileName : string
}.

Record ProvisionWatcher := mkProvisionWatcher {
  ProvisionWatcher_Name : string;
  ProvisionWatcher_ProfileName : string
}.

(** [dtos.UpdateDeviceProfileBasicInfo]: every field is a Go pointer. *)
Record UpdateDeviceProfileBasicInfo := mkUpdateDeviceProfileBasicInfo {
  dto_Id : option string;
  dto_Name : option string;
  dto_Description : option string;
  dto_Manufacturer : option string;
  dto_Model : option string;
  dto_Labels : option (list string)
}.

(** [requests.ReplaceDeviceProfileModelBasicInfoFieldsWithDTO]: copy the
    non-nil basic fields of the patch onto the profile. *)
Definition ReplaceDeviceProfileModelBasicInfoFieldsWithDTO
    (dp : DeviceProfile) (patch : UpdateDeviceProfileBasicInfo) : DeviceProfile :=
  let pick {T} (o : option T) (d : T) := match o with Some v => v | None => d end in
  {| Id := Id dp;
     Name := Name dp;
     Description := pick (dto_Description patch) (Description dp);
     Manufacturer := pick (dto_Manufacturer patch) (Manufacturer dp);
     Model := pick (dto_Model patch) (Model dp);
     Labels := pick (dto_Labels patch) (Labels dp);
     DeviceResources := DeviceResources dp |}.

(** The parts of the core-metadata configuration the operations read. *)
Record MetadataConfig := mkMetadataConfig {
  Writable_UoM_Validation : bool;
  Writable_MaxResources : Z;
  Writable_ProfileChange_StrictDeviceProfileDeletes : bool
}.

(** ** The DB client interface ([interfaces.DBClient]) over a store state *)

Record DBClient (σ : Type) := mkDBClient {
  db_AddDeviceProfile : σ -> DeviceProfile -> result DeviceProfile * σ;
  db_UpdateDeviceProfile : σ -> DeviceProfile -> option edgex * σ;
  db_DeleteDeviceProfileByName : σ -> string -> option edgex * σ;
  db_DeviceProfileById : σ -> string -> result DeviceProfile;
  db_DeviceProfileByName : σ -> string -> result DeviceProfile;
  db_DevicesByProfileName : σ -> Z -> Z -> string -> result (list Device);
  db_ProvisionWatchersByProfileName :
    σ -> Z -> Z -> string -> result (list ProvisionWatcher);
  db_DeviceProfileCountByLabels : σ -> list string -> result Z;
  db_DeviceProfileCountByModel : σ -> string -> result Z;
  db_DeviceProfileCountByManufacturer : σ -> string -> result Z;
  db_DeviceProfileCountByManufacturerAndModel : σ -> string -> string -> result Z;
  db_AllDeviceProfiles : σ -> Z -> Z -> list string -> result (list DeviceProfile);
  db_DeviceProfilesByModel : σ -> Z -> Z -> string -> result (list DeviceProfile);
  db_DeviceProfilesByManufacturer :
    σ -> Z -> Z -> string -> result (list DeviceProfile);
  db_DeviceProfilesByManufacturerAndModel :
    σ -> Z -> Z -> string -> string -> result (list DeviceProfile)
}.
Arguments db_AddDeviceProfile {σ} _ _ _.
Arguments db_UpdateDeviceProfile {σ} _ _ _.
Arguments db_DeleteDeviceProfileByName {σ} _ _ _.
Arguments db_DeviceProfileById {σ} _ _ _.
Arguments db_DeviceProfileByName {σ} _ _ _.
Arguments db_DevicesByProfileName {σ} _ _ _ _ _.
Arguments db_ProvisionWatchersByProfileName {σ} _ _ _ _ _.
Arguments db_DeviceProfileCountByLabels {σ} _ _ _.
Arguments db_DeviceProfileCountByModel {σ} _ _ _.
Arguments db_DeviceProfileCountByManufacturer {σ} _ _ _.
Arguments db_DeviceProfileCountByManufacturerAndModel {σ} _ _ _ _.
Arguments db_AllDeviceProfiles {σ} _ _ _ _ _.
Arguments db_DeviceProfilesByModel {σ} _ _ _ _ _.
Arguments db_DeviceProfilesByManufacturer {σ} _ _ _ _ _.
Arguments db_DeviceProfilesByManufacturerAndModel {σ} _ _ _ _ _ _.

Inductive SystemEventAction := SystemEventActionAdd | SystemEventActionUpdate
                             | SystemEventActionDelete.

(** The effects an operation performs, in the order they happen. *)
Inductive event (DTO : Type) :=
| CallAddDeviceProfile (d : DeviceProfile)
| CallUpdateDeviceProfile (d : DeviceProfile)
| CallDeleteDeviceProfileByName (name : string)
| CallDeviceProfileById (id : string)
| CallDeviceProfileByName (name : string)
| CallDevicesByProfileName (offset limit : Z) (name : string)
| CallProvisionWatchersByProfileName (offset limit : Z) (name : string)
| CallDeviceProfileCountByLabels (labels : list string)
| CallDeviceProfileCountByModel (model : string)
| CallDeviceProfileCountByManufacturer (manufacturer : string)
| CallDeviceProfileCountByManufacturerAndModel (manufacturer model : string)
| CallAllDeviceProfiles (offset limit : Z) (labels : list string)
| CallDeviceProfilesByModel (offset limit : Z) (model : string)
| CallDeviceProfilesByManufacturer (offset limit : Z) (manufacturer : string)
| CallDeviceProfilesByManufacturerAndModel (offset limit : Z) (manufacturer model : string)
| CallCheckResourceCapacity (d : DeviceProfile)
| ValidateUnit (units : string)
| PublishSystemEvent (action : SystemEventAction) (dto : DTO).
Arguments CallAddDeviceProfile {DTO} d.
Arguments CallUpdateDeviceProfile {DTO} d.
Arguments CallDeleteDeviceProfileByName {DTO} name.
Arguments CallDeviceProfileById {DTO} id.
Arguments CallDeviceProfileByName {DTO} name.
Arguments CallDevicesByProfileName {DTO} offset limit name.
Arguments CallProvisionWatchersByProfileName {DTO} offset limit name.
Arguments CallDeviceProfileCountByLabels {DTO} labels.
Arguments CallDeviceProfileCountByModel {DTO} model.
Arguments CallDeviceProfileCountByManufacturer {DTO} manufacturer.
Arguments CallDeviceProfileCountByManufacturerAndModel {DTO} manufacturer model.
Arguments CallAllDeviceProfiles {DTO} offset limit labels.
Arguments CallDeviceProfilesByModel {DTO} offset limit model.
Arguments CallDeviceProfilesByManufacturer {DTO} offset limit manufacturer.
Arguments CallDeviceProfilesByManufacturerAndModel {DTO} offset limit manufacturer model.
Arguments CallCheckResourceCapacity {DTO} d.
Arguments ValidateUnit {DTO} units.
Arguments PublishSystemEvent {DTO} action dto.

(** ** The operations ([internal/core/metadata/application/deviceprofile.go]) *)

Section Profiles.

Context {σ : Type} (db : DBClient σ).
Context {DeviceProfileDTO DeviceProfileBasicInfoDTO : Type}.
(** [dtos.FromDeviceProfileModelToDTO] and [dtos.FromDeviceProfileModelToBasicInfoDTO]. *)
Context (FromDeviceProfileModelToDTO : DeviceProfile -> DeviceProfileDTO).
Context (FromDeviceProfileModelToBasicInfoDTO : DeviceProfile -> DeviceProfileBasicInfoDTO).
(** [container.ConfigurationFrom(dic.Get)]. *)
Context (config : MetadataConfig).
(** [container.UnitsOfMeasureFrom(dic.Get).Validate]. *)
Context (uom_Validate : string -> bool).
(** The resource count the capacity checker computes for an update from the
    stored state and the proposed profile. *)
Context (resourceCountByUpdateProfile : σ -> DeviceProfile -> Z).

(** The state threaded through an operation: the store and the effect trace. *)
Definition St := (σ * list (event DeviceProfileDTO))%type.

(** State monad with Go panics ([None]). *)
Definition M (A : Type) := St -> option A * St.

Definition ret {A} (a : A) : M A := fun st => (Some a, st).

Definition bind {A B} (m : M A) (k : A -> M B) : M B :=
  fun st => match m st with
            | (Some a, st') => k a st'
            | (None, st') => (None, st')
            end.

Notation "x <- m ;; k" := (bind m (fun x => k))
  (at level 61, m at next level, right associativity).

(** A nil-pointer dereference. *)
Definition panic {A} : M A := fun st => (None, st).

(** A call that reads the store, recorded in the trace. *)
Definition dbread {A} (e : event DeviceProfileDTO) (f : σ -> A) : M A :=
  fun '(s, tr) => (Some (f s), (s, app tr [e])).

(** A call that may change the store, recorded in the trace. *)
Definition dbwrite {A} (e : event DeviceProfileDTO) (f : σ -> A * σ) : M A :=
  fun '(s, tr) => let '(a, s') := f s in (Some a, (s', app tr [e])).

(** [go publishSystemEvent(...)]: dispatched, not awaited. *)
Definition publish (action : SystemEventAction) (dto : DeviceProfileDTO) : M unit :=
  fun '(s, tr) => (Some tt, (s, app tr [PublishSystemEvent action dto])).

Definition uomValidate (units : string) : M bool :=
  fun '(s, tr) => (Some (uom_Validate units), (s, app tr [ValidateUnit units])).

Definition dbAddDeviceProfile d :=
  dbwrite (CallAddDeviceProfile d) (fun s => db_AddDeviceProfile db s d).
Definition dbUpdateDeviceProfile d :=
  dbwrite (CallUpdateDeviceProfile d) (fun s => db_UpdateDeviceProfile db s d).
Definition dbDeleteDeviceProfileByName n :=
  dbwrite (CallDeleteDeviceProfileByName n) (fun s => db_DeleteDeviceProfileByName db s n).
Definition dbDeviceProfileById id :=
  dbread (CallDeviceProfileById id) (fun s => db_DeviceProfileById db s id).
Definition dbDeviceProfileByName n :=
  dbread (CallDeviceProfileByName n) (fun s => db_DeviceProfileByName db s n).
Definition dbDevicesByProfileName o l n :=
  dbread (CallDevicesByProfileName o l n) (fun s => db_DevicesByProfileName db s o l n).
Definition dbProvisionWatchersByProfileName o l n :=
  dbread (CallProvisionWatchersByProfileName o l n)
         (fun s => db_ProvisionWatchersByProfileName db s o l n).
Definition dbDeviceProfileCountByLabels ls :=
  dbread (CallDeviceProfileCountByLabels ls) (fun s => db_DeviceProfileCountByLabels db s ls).
Definition dbDeviceProfileCountByModel m :=
  dbread (CallDeviceProfileCountByModel m) (fun s => db_DeviceProfileCountByModel db s m).
Definition dbDeviceProfileCountByManufacturer m :=
  dbread (CallDeviceProfileCountByManufacturer m)
         (fun s => db_DeviceProfileCountByManufacturer db s m).
Definition dbDeviceProfileCountByManufacturerAndModel ma mo :=
  dbread (CallDeviceProfileCountByManufacturerAndModel ma mo)
         (fun s => db_DeviceProfileCountByManufacturerAndModel db s ma mo).
Definition dbAllDeviceProfiles o l ls :=
  dbread (CallAllDeviceProfiles o l ls) (fun s => db_AllDeviceProfiles db s o l ls).
Definition dbDeviceProfilesByModel o l m :=
  dbread (CallDeviceProfilesByModel o l m) (fun s => db_DeviceProfilesByModel db s o l m).
Definition dbDeviceProfilesByManufacturer o l m :=
  dbread (CallDeviceProfilesByManufacturer o l m)
         (fun s => db_DeviceProfilesByManufacturer db s o l m).
Definition dbDeviceProfilesByManufacturerAndModel o l ma mo :=
  dbread (CallDeviceProfilesByManufacturerAndModel o l ma mo)
         (fun s => db_DeviceProfilesByManufacturerAndModel db s o l ma mo).

Definition uomInvalidMessage (dr : DeviceResource) : string :=
  "DeviceResource " ++ dr_Name dr ++ " units " ++ dr_Units dr ++ " is invalid".

(** The loop of [deviceProfileUoMValidation] over [p.DeviceResources]. *)
Fixpoint validateDeviceResources (drs : list DeviceResource) : M (option edgex) :=
  match drs with
  | [] => ret None
  | dr :: rest =>
      ok <- uomValidate (dr_Units dr) ;;
      if negb ok
      then ret (Some (NewCommonEdgeX KindContractInvalid (uomInvalidMessage dr)))
      else validateDeviceResources rest
  end.

Definition deviceProfileUoMValidation (p : DeviceProfile) : M (option edgex) :=
  if Writable_UoM_Validation config
  then validateDeviceResources (DeviceResources p)
  else ret None.

Definition AddDeviceProfile (d : DeviceProfile) : M (string * option edgex) :=
  err <- deviceProfileUoMValidation d ;;
  match err with
  | Some e => ret ("", Some (NewCommonEdgeXWrapper e))
  | None =>
      r <- dbAddDeviceProfile d ;;
      match r with
      | Err e => ret ("", Some (NewCommonEdgeXWrapper e))
      | Ok addedDeviceProfile =>
          _ <- publish SystemEventActionAdd
                 (FromDeviceProfileModelToDTO addedDeviceProfile) ;;
          ret (Id addedDeviceProfile, None)
      end
  end.

(** Modelled from the spec: [checkResourceCapacityByUpdateProfile] (not
    under src/). "compute the resource count implied by the update and fail
    with a conflict error if it would exceed the configured ceiling". *)
Definition checkResourceCapacityByUpdateProfile (d : DeviceProfile) : M (option edgex) :=
  fun '(s, tr) =>
    let n := resourceCountByUpdateProfile s d in
    (Some (if Writable_MaxResources config <? n
           then Some (NewCommonEdgeX KindStatusConflict
                        "the resource count exceeds the MaxResources limit")
           else None),
     (s, app tr [CallCheckResourceCapacity d])).

(** [publishUpdateDeviceProfileSystemEvent]: an update system event. *)
Definition publishUpdateDeviceProfileSystemEvent (dto : DeviceProfileDTO) : M unit :=
  publish SystemEventActionUpdate dto.

Definition UpdateDeviceProfile (d : DeviceProfile) : M (option edgex) :=
  err <- deviceProfileUoMValidation d ;;
  match err with
  | Some e => ret (Some (NewCommonEdgeXWrapper e))
  | None =>
      err <- (if 0 <? Writable_MaxResources config
              then checkResourceCapacityByUpdateProfile d
              else ret None) ;;
      match err with
      | Some e => ret (Some (NewCommonEdgeXWrapper e))
      | None =>
          err <- dbUpdateDeviceProfile d ;;
          match err with
          | Some e => ret (Some (NewCommonEdgeXWrapper e))
          | None =>
              r <- dbDeviceProfileByName (Name d) ;;
              match r with
              | Err e => ret (Some (NewCommonEdgeXWrapper e))
              | Ok profile =>
                  _ <- publishUpdateDeviceProfileSystemEvent
                         (FromDeviceProfileModelToDTO profile) ;;
                  ret None
              end
          end
      end
  end.

Definition DeleteDeviceProfileByName (name : string) : M (option edgex) :=
  if Writable_ProfileChange_StrictDeviceProfileDeletes config
  then ret (Some (NewCommonEdgeX KindServiceLocked
    "profile deletion is not allowed when StrictDeviceProfileDeletes config is enabled"))
  else if String.eqb name ""
  then ret (Some (NewCommonEdgeX KindContractInvalid "name is empty"))
  else
    r <- dbDeviceProfileByName name ;;
    match r with
    | Err e => ret (Some (NewCommonEdgeXWrapper e))
    | Ok profile =>
        (* Check the associated Device and ProvisionWatcher existence *)
        r <- dbDevicesByProfileName 0 1 name ;;
        match r with
        | Err e => ret (Some (NewCommonEdgeXWrapper e))
        | Ok devices =>
            if Nat.ltb 0 (length devices)
            then ret (Some (NewCommonEdgeX KindStatusConflict
              "fail to delete the device profile when associated device exists"))
            else
              r <- dbProvisionWatchersByProfileName 0 1 name ;;
              match r with
              | Err e => ret (Some (NewCommonEdgeXWrapper e))
              | Ok provisionWatchers =>
                  if Nat.ltb 0 (length provisionWatchers)
                  then ret (Some (NewCommonEdgeX KindStatusConflict
                    "fail to delete the device profile when associated provisionWatcher exists"))
                  else
                    err <- dbDeleteDeviceProfileByName name ;;
                    match err with
                    | Some e => ret (Some (NewCommonEdgeXWrapper e))
                    | None =>
                        _ <- publish SystemEventActionDelete
                               (FromDeviceProfileModelToDTO profile) ;;
                        ret None
                    end
              end
        end
    end.

(** Modelled from the spec: [utils.CheckCountRange] (not under src/).
    "If the window is out of range relative to the total (e.g., offset
    beyond total with no wraparound), the operation returns an empty page
    and the precomputed total count with no error"; "genuine invalid
    pagination inputs (e.g., negative offset ...) propagate as
    invalid-contract errors from this check". *)
Definition CheckCountRange (totalCount offset limit : Z) : bool * option edgex :=
  if offset <? 0
  then (false, Some (NewCommonEdgeX KindContractInvalid "offset is negative"))
  else if totalCount <=? offset
  then (false, None)
  else (true, None).

Definition AllDeviceProfiles (offset limit : Z) (labels : list string)
  : M (list DeviceProfileDTO * Z * option edgex) :=
  r <- dbDeviceProfileCountByLabels labels ;;
  match r with
  | Err e => ret ([], 0, Some (NewCommonEdgeXWrapper e))
  | Ok totalCount =>
      let '(cont, err) := CheckCountRange totalCount offset limit in
      if negb cont then ret ([], totalCount, err) else
      r <- dbAllDeviceProfiles offset limit labels ;;
      match r with
      | Err e => ret ([], totalCount, Some (NewCommonEdgeXWrapper e))
      | Ok dps => ret (map FromDeviceProfileModelToDTO dps, totalCount, None)
      end
  end.

Definition DeviceProfilesByModel (offset limit : Z) (model : string)
  : M (list DeviceProfileDTO * Z * option edgex) :=
  if String.eqb model ""
  then ret ([], 0, Some (NewCommonEdgeX KindContractInvalid "model is empty"))
  else
  r <- dbDeviceProfileCountByModel model ;;
  match r with
  | Err e => ret ([], 0, Some (NewCommonEdgeXWrapper e))
  | Ok totalCount =>
      let '(cont, err) := CheckCountRange totalCount offset limit in
      if negb cont then ret ([], totalCount, err) else
      r <- dbDeviceProfilesByModel offset limit model ;;
      match r with
      | Err e => ret ([], totalCount, Some (NewCommonEdgeXWrapper e))
      | Ok dps => ret (map FromDeviceProfileModelToDTO dps, totalCount, None)
      end
  end.

Definition DeviceProfilesByManufacturer (offset limit : Z) (manufacturer : string)
  : M (list DeviceProfileDTO * Z * option edgex) :=
  if String.eqb manufacturer ""
  then ret ([], 0, Some (NewCommonEdgeX KindContractInvalid "manufacturer is empty"))
  else
  r <- dbDeviceProfileCountByManufacturer manufacturer ;;
  match r with
  | Err e => ret ([], 0, Some (NewCommonEdgeXWrapper e))
  | Ok totalCount =>
      let '(cont, err) := CheckCountRange totalCount offset limit in
      if negb cont then ret ([], totalCount, err) else
      r <- dbDeviceProfilesByManufacturer offset limit manufacturer ;;
      match r with
      | Err e => ret ([], totalCount, Some (NewCommonEdgeXWrapper e))
      | Ok dps => ret (map FromDeviceProfileModelToDTO dps, totalCount, None)
      end
  end.

Definition DeviceProfilesByManufacturerAndModel (offset limit : Z)
    (manufacturer model : string) : M (list DeviceProfileDTO * Z * option edgex) :=
  if String.eqb manufacturer ""
  then ret ([], 0, Some (NewCommonEdgeX KindContractInvalid "manufacturer is empty"))
  else if String.eqb model ""
  then ret ([], 0, Some (NewCommonEdgeX KindContractInvalid "model is empty"))
  else
  r <- dbDeviceProfileCountByManufacturerAndModel manufacturer model ;;
  match r with
  | Err e => ret ([], 0, Some (NewCommonEdgeXWrapper e))
  | Ok totalCount =>
      let '(cont, err) := CheckCountRange totalCount offset limit in
      if negb cont then ret ([], totalCount, err) else
      r <- dbDeviceProfilesByManufacturerAndModel offset limit manufacturer model ;;
      match r with
      | Err e => ret ([], totalCount, Some (NewCommonEdgeXWrapper e))
      | Ok dps => ret (map FromDeviceProfileModelToDTO dps, totalCount, None)
      end
  end.

(** The returned slice is nil on the early returns; a nil slice is an
    empty page. *)
Definition AllDeviceProfileBasicInfos (offset limit : Z) (labels : list string)
  : M (list DeviceProfileBasicInfoDTO * Z * option edgex) :=
  r <- dbDeviceProfileCountByLabels labels ;;
  match r with
  | Err e => ret ([], 0, Some (NewCommonEdgeXWrapper e))
  | Ok totalCount =>
      let '(cont, err) := CheckCountRange totalCount offset limit in
      if negb cont then ret ([], totalCount, err) else
      r <- dbAllDeviceProfiles offset limit labels ;;
      match r with
      | Err e => ret ([], totalCount, Some (NewCommonEdgeXWrapper e))
      | Ok dps => ret (map FromDeviceProfileModelToBasicInfoDTO dps, totalCount, None)
      end
  end.

(** [deviceProfileByDTO]: the Name pointer is dereferenced without a nil
    check on the by-name branch. *)
Definition deviceProfileByDTO (dto : UpdateDeviceProfileBasicInfo)
  : M (result DeviceProfile) :=
  let byName :=
    match dto_Name dto with
    | Some n => dbDeviceProfileByName n
    | None => panic
    end in
  r <- match dto_Id dto with
       | Some id => if negb (String.eqb id "") then dbDeviceProfileById id else byName
       | None => byName
       end ;;
  match r with
  | Err e => ret (Err (NewCommonEdgeXWrapper e))
  | Ok deviceProfile =>
      match dto_Name dto with
      | Some n =>
          if negb (String.eqb n (Name deviceProfile))
          then ret (Err (NewCommonEdgeX KindContractInvalid
                 ("device profile name '" ++ n ++ "' not match the exsting '"
                   ++ Name deviceProfile ++ "' ")))
          else ret (Ok deviceProfile)
      | None => ret (Ok deviceProfile)
      end
  end.

Definition PatchDeviceProfileBasicInfo (dto : UpdateDeviceProfileBasicInfo)
  : M (option edgex) :=
  r <- deviceProfileByDTO dto ;;
  match r with
  | Err e => ret (Some (NewCommonEdgeXWrapper e))
  | Ok deviceProfile =>
      let deviceProfile :=
        ReplaceDeviceProfileModelBasicInfoFieldsWithDTO deviceProfile dto in
      err <- dbUpdateDeviceProfile deviceProfile ;;
      match err with
      | Some e => ret (Some (NewCommonEdgeXWrapper e))
      | None =>
          _ <- publishUpdateDeviceProfileSystemEvent
                 (FromDeviceProfileModelToDTO deviceProfile) ;;
          ret None
      end
  end.

(** [DeviceProfileByName]: the DTO returned next to an error is the zero
    value and is not meant to be read, so the pair is a [result]. *)
Definition DeviceProfileByName (name : string) : M (result DeviceProfileDTO) :=
  if String.eqb name ""
  then ret (Err (NewCommonEdgeX KindContractInvalid "name is empty"))
  else
    r <- dbDeviceProfileByName name ;;
    match r with
    | Err e => ret (Err (NewCommonEdgeXWrapper e))
    | Ok dp => ret (Ok (FromDeviceProfileModelToDTO dp))
    end.

(** [DBClient.DeviceCountByProfileName], the one call [isProfileInUse] makes. *)
Context (DeviceCountByProfileName : σ -> string -> result Z).

(** [isProfileInUse]: it only reads the store. *)
Definition isProfileInUse (s : σ) (profileName : string) : bool * option edgex :=
  match DeviceCountByProfileName s profileName with
  | Err e => (false, Some (NewCommonEdgeXWrapper e))
  | Ok count => (0 <? count, None)
  end.

End Profiles.

(** ** The notification service's configuration ([support/notifications/config]) *)

Section NotificationsConfig.

(** The bootstrap configuration types, opaque here. *)
Context (ClientsCollection Database RegistryInfo ServiceInfo MessageBusInfo
         InsecureSecrets TelemetryInfo : Type).

Record WritableInfo := mkWritableInfo {
  LogLevel : string;
  ResendLimit : Z;
  ResendInterval : string;
  Writable_InsecureSecrets : InsecureSecrets;
  Writable_Telemetry : TelemetryInfo
}.

Record SmtpInfo := mkSmtpInfo {
  Smtp_Host : string;
  Smtp_Port : Z;
  Smtp_Sender : string;
  Smtp_EnableSelfSignedCert : bool;
  Smtp_Subject : string;
  Smtp_SecretName : string;
  Smtp_AuthMode : string
}.

Record NotificationRetention := mkNotificationRetention {
  Retention_Enabled : bool;
  Retention_Interval : string;
  Retention_MaxCap : Z;
  Retention_MinCap : Z
}.

Record ConfigurationStruct := mkConfigurationStruct {
  Writable : WritableInfo;
  Clients : ClientsCollection;
  Database_ : Database;
  Registry : RegistryInfo;
  Service : ServiceInfo;
  MessageBus : MessageBusInfo;
  Smtp : SmtpInfo;
  Retention : NotificationRetention
}.

(** A Go [interface{}] value, by dynamic type; a pointer is [option] of its
    pointee ([None] is a nil pointer of that type). *)
Inductive any :=
| AnyNil
| AnyConfigurationStructPtr (p : option ConfigurationStruct)
| AnyWritableInfoPtr (p : option WritableInfo)
| AnyConfigurationStruct (v : ConfigurationStruct)
| AnyWritableInfo (v : WritableInfo)
| AnyOther (typeName : string).

(** The methods take the receiver's pointee and yield the new pointee and
    the returned bool; [None] is a nil-pointer panic. *)
Definition UpdateFromRaw (c : ConfigurationStruct) (rawConfig : any)
  : option (bool * ConfigurationStruct) :=
  match rawConfig with
  | AnyConfigurationStructPtr configuration =>
      (* ok = true; *c = *configuration *)
      match configuration with
      | Some conf => Some (true, conf)
      | None => None
      end
  | _ => Some (false, c)
  end.

Definition UpdateWritableFromRaw (c : ConfigurationStruct) (rawWritable : any)
  : option (bool * ConfigurationStruct) :=
  match rawWritable with
  | AnyWritableInfoPtr writable =>
      (* ok = true; c.Writable = *writable *)
      match writable with
      | Some w => Some (true, {| Writable := w;
                                 Clients := Clients c;
                                 Database_ := Database_ c;
                                 Registry := Registry c;
                                 Service := Service c;
                                 MessageBus := MessageBus c;
                                 Smtp := Smtp c;
                                 Retention := Retention c |})
      | None => None
      end
  | _ => Some (false, c)
  end.

(** The zero values of the opaque bootstrap types. *)
Context (InsecureSecrets_zero : InsecureSecrets) (TelemetryInfo_zero : TelemetryInfo).

(** [EmptyWritablePtr]: [&WritableInfo{}]. *)
Definition EmptyWritablePtr (c : ConfigurationStruct) : any :=
  AnyWritableInfoPtr (Some {| LogLevel := "";
                              ResendLimit := 0;
                              ResendInterval := "";
                              Writable_InsecureSecrets := InsecureSecrets_zero;
                              Writable_Telemetry := TelemetryInfo_zero |}).

(** [GetWritablePtr]: [&c.Writable]; dereferenced, it reads [c.Writable]. *)
Definition GetWritablePtr (c : ConfigurationStruct) : any :=
  AnyWritableInfoPtr (Some (Writable c)).

(** The five sections of [bootstrapConfig.BootstrapConfiguration] that
    [GetBootstrap] sets; each is a non-nil pointer into the receiver, read
    here as the value it points to. *)
Record BootstrapConfiguration := mkBootstrapConfiguration {
  Bootstrap_Clients : option ClientsCollection;
  Bootstrap_Service : option ServiceInfo;
  Bootstrap_Registry : option RegistryInfo;
  Bootstrap_MessageBus : option MessageBusInfo;
  Bootstrap_Database : option Database
}.

Definition GetBootstrap (c : ConfigurationStruct) : BootstrapConfiguration :=
  {| Bootstrap_Clients := Some (Clients c);
     Bootstrap_Service := Some (Service c);
     Bootstrap_Registry := Some (Registry c);
     Bootstrap_MessageBus := Some (MessageBus c);
     Bootstrap_Database := Some (Database_ c) |}.

Definition GetLogLevel (c : ConfigurationStruct) : string := LogLevel (Writable c).

Definition GetRegistryInfo (c : ConfigurationStruct) : RegistryInfo := Registry c.

Definition GetDatabaseInfo (c : ConfigurationStruct) : Database := Database_ c.

Definition GetInsecureSecrets (c : ConfigurationStruct) : InsecureSecrets :=
  Writable_InsecureSecrets (Writable c).

(** [GetTelemetryInfo]: [&c.Writable.Telemetry], never nil. *)
Definition GetTelemetryInfo (c : ConfigurationStruct) : option TelemetryInfo :=
  Some (Writable_Telemetry (Writable c)).

End NotificationsConfig.

Arguments EmptyWritablePtr {_ _ _ _ _ _ _} InsecureSecrets_zero TelemetryInfo_zero c.
Arguments GetWritablePtr {_ _ _ _ _ _ _} c.
Arguments GetBootstrap {_ _ _ _ _ _ _} c.
Arguments GetLogLevel {_ _ _ _ _ _ _} c.
Arguments GetRegistryInfo {_ _ _ _ _ _ _} c.
Arguments GetDatabaseInfo {_ _ _ _ _ _ _} c.
Arguments GetInsecureSecrets {_ _ _ _ _ _ _} c.
Arguments GetTelemetryInfo {_ _ _ _ _ _ _} c.

(** ** An in-memory store, to run the operations on concrete inputs *)

Record MemStore := mkMemStore {
  ms_profiles : list DeviceProfile;
  ms_devices : list Device;
  ms_watchers : list ProvisionWatcher
}.

Definition notFound (what : string) : edgex :=
  NewCommonEdgeX KindEntityDoesNotExist (what ++ " does not exist").

Definition findResult {A} (p : A -> bool) (l : list A) (what : string) : result A :=
  match find p l with Some a => Ok a | None => Err (notFound what) end.

Definition page {A} (offset limit : Z) (l : list A) : list A :=
  let rest := skipn (Z.to_nat offset) l in
  if limit <? 0 then rest else firstn (Z.to_nat limit) rest.

Definition byName (n : string) (p : DeviceProfile) := String.eqb (Name p) n.
Definition hasLabels (ls : list string) (p : DeviceProfile) :=
  forallb (fun l => existsb (String.eqb l) (Labels p)) ls.
Definition byModel (m : string) (p : DeviceProfile) := String.eqb (Model p) m.
Definition byManufacturer (m : string) (p : DeviceProfile) :=
  String.eqb (Manufacturer p) m.

Definition count {A} (p : A -> bool) (l : list A) : Z := Z.of_nat (length (filter p l)).

Definition setProfiles (s : MemStore) (ps : list DeviceProfile) : MemStore :=
  {| ms_profiles := ps; ms_devices := ms_devices s; ms_watchers := ms_watchers s |}.

Definition memDB : DBClient MemStore := {|
  db_AddDeviceProfile := fun s d =>
    if existsb (byName (Name d)) (ms_profiles s)
    then (Err (NewCommonEdgeX KindStatusConflict "duplicate name"), s)
    else let d' := {| Id := "id-" ++ Name d; Name := Name d;
                      Description := Description d; Manufacturer := Manufacturer d;
                      Model := Model d; Labels := Labels d;
                      DeviceResources := DeviceResources d |} in
         (Ok d', setProfiles s (ms_profiles s ++ [d'])%list);
  db_UpdateDeviceProfile := fun s d =>
    if existsb (byName (Name d)) (ms_profiles s)
    then (None, setProfiles s
                  (map (fun p => if byName (Name d) p then d else p) (ms_profiles s)))
    else (Some (notFound "device profile"), s);
  db_DeleteDeviceProfileByName := fun s n =>
    if existsb (byName n) (ms_profiles s)
    then (None, setProfiles s (filter (fun p => negb (byName n p)) (ms_profiles s)))
    else (Some (notFound "device profile"), s);
  db_DeviceProfileById := fun s id =>
    findResult (fun p => String.eqb (Id p) id) (ms_profiles s) "device profile";
  db_DeviceProfileByName := fun s n => findResult (byName n) (ms_profiles s) "device profile";
  db_DevicesByProfileName := fun s o l n =>
    Ok (page o l (filter (fun d => String.eqb (Device_ProfileName d) n) (ms_devices s)));
  db_ProvisionWatchersByProfileName := fun s o l n =>
    Ok (page o l (filter (fun w => String.eqb (ProvisionWatcher_ProfileName w) n)
                         (ms_watchers s)));
  db_DeviceProfileCountByLabels := fun s ls => Ok (count (hasLabels ls) (ms_profiles s));
  db_DeviceProfileCountByModel := fun s m => Ok (count (byModel m) (ms_profiles s));
  db_DeviceProfileCountByManufacturer := fun s m =>
    Ok (count (byManufacturer m) (ms_profiles s));
  db_DeviceProfileCountByManufacturerAndModel := fun s ma mo =>
    Ok (count (fun p => byManufacturer ma p && byModel mo p) (ms_profiles s));
  db_AllDeviceProfiles := fun s o l ls => Ok (page o l (filter (hasLabels ls) (ms_profiles s)));
  db_DeviceProfilesByModel := fun s o l m => Ok (page o l (filter (byModel m) (ms_profiles s)));
  db_DeviceProfilesByManufacturer := fun s o l m =>
    Ok (page o l (filter (byManufacturer m) (ms_profiles s)));
  db_DeviceProfilesByManufacturerAndModel := fun s o l ma mo =>
    Ok (page o l (filter (fun p => byManufacturer ma p && byModel mo p) (ms_profiles s)))
|}.

(** Sample data: "Celsius" and "Fahrenheit" are the recognised units. *)
Definition sampleUoM (u : string) : bool :=
  String.eqb u "Celsius" || String.eqb u "Fahrenheit".

Definition tempSensor : DeviceProfile := {|
  Id := "id-Temp-Sensor-X"; Name := "Temp-Sensor-X"; Description := "";
  Manufacturer := "IOTech"; Model := "T1"; Labels := ["temp"];
  DeviceResources := [mkDeviceResource "temperature" "Celsius"] |}.

Definition sampleStore : MemStore := {|
  ms_profiles := [tempSensor];
  ms_devices := [mkDevice "sensor-1" "Temp-Sensor-X"];
  ms_watchers := [] |}.

Definition cfgOff : MetadataConfig := mkMetadataConfig false 0 false.

(** The DTO projection used with the in-memory store. *)
Definition idDTO (p : DeviceProfile) : DeviceProfile := p.

Definition cfgStrict : MetadataConfig := mkMetadataConfig false 0 true.
Definition cfgUoM : MetadataConfig := mkMetadataConfig true 0 false.
Definition cfgCap : MetadataConfig := mkMetadataConfig true 1 false.

(** The resource count of the in-memory store once [d] replaces the stored
    profile of the same name. *)
Definition memResourceCount (s : MemStore) (d : DeviceProfile) : Z :=
  Z.of_nat (length (DeviceResources d)) +
  fold_right (fun p acc => Z.of_nat (length (DeviceResources p)) + acc) 0
    (filter (fun p => negb (byName (Name d) p)) (ms_profiles s)).

(** A profile whose second resource has an unrecognised unit. *)
Definition hygroSensor : DeviceProfile := {|
  Id := ""; Name := "Hygro-Sensor"; Description := "";
  Manufacturer := "IOTech"; Model := "H1"; Labels := [];
  DeviceResources := [mkDeviceResource "temperature" "Celsius";
                      mkDeviceResource "humidity" "Kelvin"] |}.

(** [tempSensor] with a second resource. *)
Definition tempSensor2 : DeviceProfile := {|
  Id := "id-Temp-Sensor-X"; Name := "Temp-Sensor-X"; Description := "two channels";
  Manufacturer := "IOTech"; Model := "T1"; Labels := ["temp"];
  DeviceResources := [mkDeviceResource "temperature" "Celsius";
                      mkDeviceResource "temperatureF" "Fahrenheit"] |}.

Definition updatedStore : MemStore := snd (db_UpdateDeviceProfile memDB sampleStore tempSensor2).

Definition renamePatch : UpdateDeviceProfileBasicInfo :=
  mkUpdateDeviceProfileBasicInfo (Some "id-Temp-Sensor-X") (Some "Renamed")
    None None None None.

Definition nilPatch : UpdateDeviceProfileBasicInfo :=
  mkUpdateDeviceProfileBasicInfo None None (Some "new description") None None None.

Definition sampleWritable : WritableInfo unit unit :=
  mkWritableInfo unit unit "INFO" 2 "5m" tt tt.

Definition sampleConfiguration : ConfigurationStruct unit unit unit unit unit unit unit := {|
  Writable := sampleWritable; Clients := tt; Database_ := tt; Registry := tt;
  Service := tt; MessageBus := tt;
  Smtp := mkSmtpInfo "smtp.example.com" 587 "edgex@example.com" false "EdgeX" "" "";
  Retention := mkNotificationRetention true "30m" 5000 4000 |}.

(** The device count of the in-memory store. *)
Definition memDeviceCount (s : MemStore) (n : string) : result Z :=
  Ok (count (fun d => String.eqb (Device_ProfileName d) n) (ms_devices s)).

(** A store whose every call fails with a database error. *)
Definition dbDown : edgex := NewCommonEdgeX KindDatabaseError "database unavailable".

Definition downDB : DBClient MemStore := {|
  db_AddDeviceProfile := fun s _ => (Err dbDown, s);
  db_UpdateDeviceProfile := fun s _ => (Some dbDown, s);
  db_DeleteDeviceProfileByName := fun s _ => (Some dbDown, s);
  db_DeviceProfileById := fun _ _ => Err dbDown;
  db_DeviceProfileByName := fun _ _ => Err dbDown;
  db_DevicesByProfileName := fun _ _ _ _ => Err dbDown;
  db_ProvisionWatchersByProfileName := fun _ _ _ _ => Err dbDown;
  db_DeviceProfileCountByLabels := fun _ _ => Err dbDown;
  db_DeviceProfileCountByModel := fun _ _ => Err dbDown;
  db_DeviceProfileCountByManufacturer := fun _ _ => Err dbDown;
  db_DeviceProfileCountByManufacturerAndModel := fun _ _ _ => Err dbDown;
  db_AllDeviceProfiles := fun _ _ _ _ => Err dbDown;
  db_DeviceProfilesByModel := fun _ _ _ _ => Err dbDown;
  db_DeviceProfilesByManufacturer := fun _ _ _ _ => Err dbDown;
  db_DeviceProfilesByManufacturerAndModel := fun _ _ _ _ _ => Err dbDown
|}.

(** [hygroSensor] as the in-memory store adds it, with its assigned id. *)
Definition hygroAdded : DeviceProfile := {|
  Id := "id-Hygro-Sensor"; Name := "Hygro-Sensor"; Description := "";
  Manufacturer := "IOTech"; Model := "H1"; Labels := [];
  DeviceResources := [mkDeviceResource "temperature" "Celsius";
                      mkDeviceResource "humidity" "Kelvin"] |}.

Definition hygroAddStore : MemStore := setProfiles sampleStore [tempSensor; hygroAdded].

(** [sampleStore] with the unreferenced [hygroAdded] stored as well. *)
Definition hygroStore : MemStore := {|
  ms_profiles := [tempSensor; hygroAdded];
  ms_devices := ms_devices sampleStore;
  ms_watchers := [] |}.

(** A patch of the description that names the stored profile correctly. *)
Definition descPatch : UpdateDeviceProfileBasicInfo :=
  mkUpdateDeviceProfileBasicInfo (Some "id-Temp-Sensor-X") (Some "Temp-Sensor-X")
    (Some "outdoor unit") None None None.

Definition descPatchedStore : MemStore :=
  snd (db_UpdateDeviceProfile memDB sampleStore
         (ReplaceDeviceProfileModelBasicInfoFieldsWithDTO tempSensor descPatch)).

Definition debugWritable : WritableInfo unit unit :=
  mkWritableInfo unit unit "DEBUG" 2 "5m" tt tt.

Definition debugConfiguration : ConfigurationStruct unit unit unit unit unit unit unit := {|
  Writable := debugWritable; Clients := tt; Database_ := tt; Registry := tt;
  Service := tt; MessageBus := tt;
  Smtp := Smtp _ _ _ _ _ _ _ sampleConfiguration;
  Retention := Retention _ _ _ _ _ _ _ sampleConfiguration |}.

(** * Properties of the device profile operations *)

Section ProfileProperties.

Context {σ : Type} (db : DBClient σ).
Context {DeviceProfileDTO DeviceProfileBasicInfoDTO : Type}.
Context (toDTO : DeviceProfile -> DeviceProfileDTO).
Context (toBasicInfoDTO : DeviceProfile -> DeviceProfileBasicInfoDTO).
Context (config : MetadataConfig).
Context (uom : string -> bool).
Context (resourceCount : σ -> DeviceProfile -> Z).
Context (deviceCount : σ -> string -> result Z).

Local Open Scope list_scope.

(** A profile passes unit validation when the toggle is off or every unit
    is accepted; the validation then only records unit checks. *)
Definition uom_passes (d : DeviceProfile) : Prop :=
  Writable_UoM_Validation config = false \/
  forallb (fun x => uom (dr_Units x)) (DeviceResources d) = true.

(** What a listing call promises once the store has counted [n] matches:
    the returned total is [n]; when the count-range check declares the
    window unservable, the page is empty, the error is the check's, and it
    is nil exactly when the offset is not negative. *)
Definition listing_outcome {T : Type} (n offset limit : Z)
    (out : option (list T * Z * option edgex)) : Prop :=
  match out with
  | Some (pg, totalCount, err) =>
      totalCount = n /\
      (fst (CheckCountRange n offset limit) = false ->
       pg = [] /\ err = snd (CheckCountRange n offset limit)
       /\ (err = None <-> (0 <= offset)%Z))
  | None => False
  end.

(** [m] does not look at the trace it is given: run from any trace, it
    appends what it appends when run from the empty one. *)
Definition frame {A : Type} (m : @M σ DeviceProfileDTO A) : Prop :=
  forall s tr, m (s, tr) = let '(o, (s', t)) := m (s, []) in (o, (s', tr ++ t)).

Definition is_read_call (e : event DeviceProfileDTO) : bool :=
  match e with
  | CallDeviceProfileById _ | CallDeviceProfileByName _
  | CallDevicesByProfileName _ _ _ | CallProvisionWatchersByProfileName _ _ _
  | CallDeviceProfileCountByLabels _ | CallDeviceProfileCountByModel _
  | CallDeviceProfileCountByManufacturer _
  | CallDeviceProfileCountByManufacturerAndModel _ _
  | CallAllDeviceProfiles _ _ _ | CallDeviceProfilesByModel _ _ _
  | CallDeviceProfilesByManufacturer _ _ _
  | CallDeviceProfilesByManufacturerAndModel _ _ _ _ => true
  | _ => false
  end.

(** [m] never panics, leaves the store as it is and only reads it. *)
Definition read_only {A : Type} (m : @M σ DeviceProfileDTO A) : Prop :=
  forall s tr, exists a t,
    m (s, tr) = (Some a, (s, tr ++ t)) /\ forallb is_read_call t = true.

Definition is_publish (e : event DeviceProfileDTO) : bool :=
  match e with PublishSystemEvent _ _ => true | _ => false end.

Definition nil_error (e : option edgex) : bool :=
  match e with None => true | Some _ => false end.

(** The effects [t] of a run: a successful run ends with its one system
    event, of action [act], and publishes nothing before; a failed or
    panicking run publishes nothing. *)
Definition publish_discipline (act : SystemEventAction) (ok : bool)
    (t : list (event DeviceProfileDTO)) : Prop :=
  if ok
  then exists pre x, t = pre ++ [PublishSystemEvent act x] /\ existsb is_publish pre = false
  else existsb is_publish t = false.

(** The outcome [out] of a run started on trace [tr] only appends to it, and
    what it appends follows [publish_discipline]. *)
Definition mutation_outcome {A : Type} (act : SystemEventAction) (success : A -> bool)
    (out : option A * (σ * list (event DeviceProfileDTO)))
    (tr : list (event DeviceProfileDTO)) : Prop :=
  exists t, snd (snd out) = tr ++ t /\
    publish_discipline act (match fst out with Some a => success a | None => false end) t.

Ltac run_op :=
  unfold publishUpdateDeviceProfileSystemEvent, dbAddDeviceProfile,
    dbUpdateDeviceProfile, dbDeleteDeviceProfileByName, dbDeviceProfileById,
    dbDeviceProfileByName, dbDevicesByProfileName, dbProvisionWatchersByProfileName,
    dbDeviceProfileCountByLabels, dbDeviceProfileCountByModel,
    dbDeviceProfileCountByManufacturer, dbDeviceProfileCountByManufacturerAndModel,
    dbAllDeviceProfiles, dbDeviceProfilesByModel, dbDeviceProfilesByManufacturer,
    dbDeviceProfilesByManufacturerAndModel, dbread, dbwrite, publish, uomValidate,
    bind, ret, panic;
  cbn.

Lemma eqb_nonempty (name : string) : name <> "" -> String.eqb name "" = false.
Proof. intro H. apply String.eqb_neq. exact H. Qed.

(** ** Delete by name *)

(** C3: with StrictDeviceProfileDeletes enabled, DeleteDeviceProfileByName
    fails service-locked for every name, existing or not, referenced or
    not, before any other check: the store state and the effect trace are
    left exactly as they were, so no store operation is invoked. *)
Theorem DeleteDeviceProfileByName_strict_locked :
  forall (name : string) (s : σ) (tr : list (event DeviceProfileDTO)),
    Writable_ProfileChange_StrictDeviceProfileDeletes config = true ->
    exists e,
      DeleteDeviceProfileByName db toDTO config name (s, tr) = (Some (Some e), (s, tr))
      /\ Kind e = KindServiceLocked.
Proof.
  intros name s tr Hstrict. unfold DeleteDeviceProfileByName. rewrite Hstrict.
  eexists. split; reflexivity.
Qed.

(** C1 (amended): when StrictDeviceProfileDeletes is disabled and the name
    is non-empty, deleting a profile the store finds by that name fails
    status-conflict as soon as the bounded device probe
    [DevicesByProfileName(0, 1, name)] returns a row, or it returns none and
    the provision watcher probe [ProvisionWatchersByProfileName(0, 1, name)]
    returns a row; the store is unchanged, the probes asked for one row at
    offset 0, and no delete was invoked. *)
Theorem DeleteDeviceProfileByName_referenced_conflict :
  forall (name : string) (p : DeviceProfile) (s : σ) (tr : list (event DeviceProfileDTO)),
    Writable_ProfileChange_StrictDeviceProfileDeletes config = false ->
    name <> "" ->
    db_DeviceProfileByName db s name = Ok p ->
    (exists d ds, db_DevicesByProfileName db s 0 1 name = Ok (d :: ds)) \/
    (db_DevicesByProfileName db s 0 1 name = Ok [] /\
     exists w ws, db_ProvisionWatchersByProfileName db s 0 1 name = Ok (w :: ws)) ->
    exists e tr',
      DeleteDeviceProfileByName db toDTO config name (s, tr) = (Some (Some e), (s, tr ++ tr'))
      /\ Kind e = KindStatusConflict
      /\ In (CallDevicesByProfileName 0 1 name) tr'
      /\ (forall x, ~ In (CallDeleteDeviceProfileByName x) tr').
Proof.
  intros name p s tr Hstrict Hname Hfound Href.
  unfold DeleteDeviceProfileByName. rewrite Hstrict, (eqb_nonempty name Hname).
  run_op. rewrite Hfound. cbn.
  destruct Href as [(d & ds & Hdev) | (Hdev & w & ws & Hpw)].
  - rewrite Hdev. cbn. do 2 eexists. split; [rewrite <- app_assoc; reflexivity |].
    split; [reflexivity |]. split; [cbn; auto |].
    intros x [H | [H | H]]; discriminate || contradiction.
  - rewrite Hdev. cbn. rewrite Hpw. cbn. do 2 eexists.
    split; [rewrite <- !app_assoc; reflexivity |].
    split; [reflexivity |]. split; [cbn; auto |].
    intros x [H | [H | [H | H]]]; discriminate || contradiction.
Qed.

(** ** Units-of-measure validation *)

Lemma validateDeviceResources_all_valid :
  forall (drs : list DeviceResource) (s : σ) (tr : list (event DeviceProfileDTO)),
    forallb (fun x => uom (dr_Units x)) drs = true ->
    validateDeviceResources uom drs (s, tr)
    = (Some None, (s, tr ++ map (fun x => ValidateUnit (dr_Units x)) drs)).
Proof.
  induction drs as [| dr rest IH]; intros s tr Hok; cbn in *.
  - rewrite app_nil_r. reflexivity.
  - apply andb_prop in Hok as [Hdr Hrest]. run_op. rewrite Hdr. cbn.
    rewrite IH by exact Hrest. rewrite <- app_assoc. reflexivity.
Qed.

Lemma validateDeviceResources_first_invalid :
  forall (pre : list DeviceResource) (dr : DeviceResource) (post : list DeviceResource)
         (s : σ) (tr : list (event DeviceProfileDTO)),
    forallb (fun x => uom (dr_Units x)) pre = true ->
    uom (dr_Units dr) = false ->
    validateDeviceResources uom (pre ++ dr :: post) (s, tr)
    = (Some (Some (NewCommonEdgeX KindContractInvalid (uomInvalidMessage dr))),
       (s, tr ++ map (fun x => ValidateUnit (dr_Units x)) (pre ++ [dr]))).
Proof.
  induction pre as [| x rest IH]; intros dr post s tr Hpre Hdr; cbn in *.
  - run_op. rewrite Hdr. reflexivity.
  - apply andb_prop in Hpre as [Hx Hrest]. run_op. rewrite Hx. cbn.
    rewrite IH by assumption. rewrite <- app_assoc. reflexivity.
Qed.

(** C2: with the UoM validation toggle enabled, a profile whose device
    resources are [pre ++ dr :: post], where every unit in [pre] is
    accepted and the unit of [dr] is rejected, makes both AddDeviceProfile
    and UpdateDeviceProfile fail invalid-contract with the message naming
    [dr]; the only effects are the unit validations up to [dr] (no insert,
    no replace, store unchanged). With the toggle disabled the validation
    succeeds without validating any unit. *)
Theorem deviceProfile_UoM_invalid_rejected :
  (forall (d : DeviceProfile) (pre : list DeviceResource) (dr : DeviceResource)
          (post : list DeviceResource) (s : σ) (tr : list (event DeviceProfileDTO)),
     Writable_UoM_Validation config = true ->
     DeviceResources d = pre ++ dr :: post ->
     forallb (fun x => uom (dr_Units x)) pre = true ->
     uom (dr_Units dr) = false ->
     let err := NewCommonEdgeXWrapper
                  (NewCommonEdgeX KindContractInvalid (uomInvalidMessage dr)) in
     let vs := map (fun x => ValidateUnit (dr_Units x)) (pre ++ [dr]) in
     AddDeviceProfile db toDTO config uom d (s, tr) = (Some ("", Some err), (s, tr ++ vs))
     /\ UpdateDeviceProfile db toDTO config uom resourceCount d (s, tr)
        = (Some (Some err), (s, tr ++ vs)))
  /\
  (forall (p : DeviceProfile) (st : σ * list (event DeviceProfileDTO)),
     Writable_UoM_Validation config = false ->
     deviceProfileUoMValidation config uom p st = (Some None, st)).
Proof.
  split.
  - intros d pre dr post s tr Hon Hdrs Hpre Hdr err vs.
    assert (Hv : deviceProfileUoMValidation config uom d (s, tr)
                 = (Some (Some (NewCommonEdgeX KindContractInvalid (uomInvalidMessage dr))),
                    (s, tr ++ vs))).
    { unfold deviceProfileUoMValidation. rewrite Hon, Hdrs.
      apply validateDeviceResources_first_invalid; assumption. }
    split.
    + unfold AddDeviceProfile, bind at 1. rewrite Hv. reflexivity.
    + unfold UpdateDeviceProfile, bind at 1. rewrite Hv. reflexivity.
  - intros p st Hoff. unfold deviceProfileUoMValidation. rewrite Hoff. reflexivity.
Qed.

(** ** Patch basic info *)

(** C9: deviceProfileByDTO panics (nil dereference of [dto.Name]) exactly
    when the Id is nil or empty and the Name is nil; so it, and
    PatchDeviceProfileBasicInfo which calls it first, is total exactly on
    payloads that carry a non-empty Id or a non-nil Name. *)
Theorem deviceProfileByDTO_panics_iff :
  forall (dto : UpdateDeviceProfileBasicInfo) (st : σ * list (event DeviceProfileDTO)),
    (fst (deviceProfileByDTO db dto st) = None
     <-> (dto_Id dto = None \/ dto_Id dto = Some "") /\ dto_Name dto = None)
    /\
    (fst (PatchDeviceProfileBasicInfo db toDTO dto st) = None
     <-> (dto_Id dto = None \/ dto_Id dto = Some "") /\ dto_Name dto = None).
Proof.
  intros [[id|] [n|] ? ? ? ?] [s tr];
    unfold PatchDeviceProfileBasicInfo, deviceProfileByDTO; run_op;
    repeat (match goal with
            | |- context [String.eqb ?a ?b] => destruct (String.eqb a b) eqn:?
            | |- context [db_DeviceProfileById db ?s ?i] =>
                destruct (db_DeviceProfileById db s i)
            | |- context [db_DeviceProfileByName db ?s ?i] =>
                destruct (db_DeviceProfileByName db s i)
            | |- context [db_UpdateDeviceProfile db ?s ?i] =>
                destruct (db_UpdateDeviceProfile db s i) as [[?|] ?]
            end; cbn);
    repeat match goal with
           | H : String.eqb _ _ = true |- _ => apply String.eqb_eq in H; subst
           | H : String.eqb _ _ = false |- _ => apply String.eqb_neq in H
           end;
    split; split; intros H; try discriminate; auto;
    destruct H as [[H | H] H']; congruence.
Qed.

(** C5: a patch whose payload carries the name [n] is resolved by id when
    the payload's Id is non-nil and non-empty, else by [n]; when the
    resolved record's name differs from [n] the call fails invalid-contract
    and its only effect is that one lookup: no replace, store unchanged. *)
Theorem PatchDeviceProfileBasicInfo_name_mismatch :
  forall (dto : UpdateDeviceProfileBasicInfo) (n : string) (p : DeviceProfile)
         (s : σ) (tr : list (event DeviceProfileDTO)),
    dto_Name dto = Some n ->
    match dto_Id dto with
    | Some id => if String.eqb id "" then db_DeviceProfileByName db s n
                 else db_DeviceProfileById db s id
    | None => db_DeviceProfileByName db s n
    end = Ok p ->
    Name p <> n ->
    exists e,
      PatchDeviceProfileBasicInfo db toDTO dto (s, tr)
      = (Some (Some e),
         (s, tr ++ [match dto_Id dto with
                    | Some id => if String.eqb id "" then CallDeviceProfileByName n
                                 else CallDeviceProfileById id
                    | None => CallDeviceProfileByName n
                    end]))
      /\ Kind e = KindContractInvalid.
Proof.
  intros dto n p s tr Hname Hfound Hdiff.
  assert (Hne : String.eqb n (Name p) = false)
    by (apply String.eqb_neq; intro Heq; apply Hdiff; symmetry; exact Heq).
  unfold PatchDeviceProfileBasicInfo, deviceProfileByDTO. rewrite Hname.
  destruct (dto_Id dto) as [id|].
  - destruct (String.eqb id "") eqn:Hid; run_op; rewrite Hfound; cbn; rewrite Hne; cbn;
      eexists; split; reflexivity.
  - run_op. rewrite Hfound. cbn. rewrite Hne. cbn. eexists; split; reflexivity.
Qed.

(** ** Listing *)

(** C8: a filtered listing with an empty required filter field (model for
    list-by-model, manufacturer for list-by-manufacturer, manufacturer or
    model for list-by-manufacturer-and-model) fails invalid-contract with an
    empty page and leaves store and trace untouched: no count, no list. *)
Theorem listing_empty_filter_rejected :
  forall (offset limit : Z) (s : σ) (tr : list (event DeviceProfileDTO)),
    (exists e,
       DeviceProfilesByModel db toDTO offset limit "" (s, tr)
       = (Some ([], 0%Z, Some e), (s, tr)) /\ Kind e = KindContractInvalid)
    /\ (exists e,
       DeviceProfilesByManufacturer db toDTO offset limit "" (s, tr)
       = (Some ([], 0%Z, Some e), (s, tr)) /\ Kind e = KindContractInvalid)
    /\ (forall model, exists e,
       DeviceProfilesByManufacturerAndModel db toDTO offset limit "" model (s, tr)
       = (Some ([], 0%Z, Some e), (s, tr)) /\ Kind e = KindContractInvalid)
    /\ (forall manufacturer, exists e,
       DeviceProfilesByManufacturerAndModel db toDTO offset limit manufacturer "" (s, tr)
       = (Some ([], 0%Z, Some e), (s, tr)) /\ Kind e = KindContractInvalid).
Proof.
  intros offset limit s tr.
  unfold DeviceProfilesByModel, DeviceProfilesByManufacturer,
    DeviceProfilesByManufacturerAndModel.
  split; [| split; [| split]].
  - eexists; split; reflexivity.
  - eexists; split; reflexivity.
  - intros model. eexists; split; reflexivity.
  - intros manufacturer. destruct (String.eqb manufacturer "");
      eexists; split; reflexivity.
Qed.


Lemma CheckCountRange_unservable (n offset limit : Z) :
  fst (CheckCountRange n offset limit) = false ->
  (snd (CheckCountRange n offset limit) = None <-> (0 <= offset)%Z).
Proof.
  unfold CheckCountRange. destruct (offset <? 0)%Z eqn:Ho.
  - apply Z.ltb_lt in Ho. cbn. intros _. split; [discriminate | lia].
  - apply Z.ltb_ge in Ho. destruct (n <=? offset)%Z; cbn; [| discriminate].
    intros _. split; [intros _; exact Ho | reflexivity].
Qed.

Ltac listing_servable q :=
  run_op; destruct q; cbn; (split; [reflexivity | intros Hf; discriminate Hf]).

Ltac listing_unservable :=
  split; [reflexivity |]; intros _; split; [reflexivity |]; split; [reflexivity |];
  match goal with
  | Hcc : CheckCountRange ?a ?b ?c = _ |- _ =>
      let Hu := fresh "Hu" in
      pose proof (CheckCountRange_unservable a b c) as Hu;
      rewrite Hcc in Hu; exact (Hu eq_refl)
  end.

Ltac listing_tail q :=
  unfold listing_outcome;
  destruct (CheckCountRange _ _ _) as [[|] ?] eqn:?; cbn;
  [ listing_servable q | listing_unservable ].

(** C7: for every listing operation whose required filter fields are
    non-empty, once the store's count query returns [n], the returned
    totalCount is [n]; when the count-range check declares the window
    unservable the page is empty and the error is the check's, which is
    nil for an out-of-range window and an invalid-contract error only for a
    negative offset. *)
Theorem listing_totalCount :
  forall (offset limit : Z) (s : σ) (tr : list (event DeviceProfileDTO)),
    (forall labels n,
       db_DeviceProfileCountByLabels db s labels = Ok n ->
       listing_outcome n offset limit
         (fst (AllDeviceProfiles db toDTO offset limit labels (s, tr))))
    /\ (forall model n,
       model <> "" ->
       db_DeviceProfileCountByModel db s model = Ok n ->
       listing_outcome n offset limit
         (fst (DeviceProfilesByModel db toDTO offset limit model (s, tr))))
    /\ (forall manufacturer n,
       manufacturer <> "" ->
       db_DeviceProfileCountByManufacturer db s manufacturer = Ok n ->
       listing_outcome n offset limit
         (fst (DeviceProfilesByManufacturer db toDTO offset limit manufacturer (s, tr))))
    /\ (forall manufacturer model n,
       manufacturer <> "" -> model <> "" ->
       db_DeviceProfileCountByManufacturerAndModel db s manufacturer model = Ok n ->
       listing_outcome n offset limit
         (fst (DeviceProfilesByManufacturerAndModel db toDTO offset limit
                 manufacturer model (s, tr))))
    /\ (forall labels n,
       db_DeviceProfileCountByLabels db s labels = Ok n ->
       listing_outcome n offset limit
         (fst (AllDeviceProfileBasicInfos db toBasicInfoDTO offset limit labels (s, tr)))).
Proof.
  intros offset limit s tr. split; [| split; [| split; [| split]]].
  - intros labels n Hc. unfold AllDeviceProfiles. run_op. rewrite Hc. cbn.
    listing_tail (db_AllDeviceProfiles db s offset limit labels).
  - intros model n Hm Hc. unfold DeviceProfilesByModel. rewrite (eqb_nonempty _ Hm).
    run_op. rewrite Hc. cbn.
    listing_tail (db_DeviceProfilesByModel db s offset limit model).
  - intros manufacturer n Hm Hc. unfold DeviceProfilesByManufacturer.
    rewrite (eqb_nonempty _ Hm). run_op. rewrite Hc. cbn.
    listing_tail (db_DeviceProfilesByManufacturer db s offset limit manufacturer).
  - intros manufacturer model n Hma Hmo Hc. unfold DeviceProfilesByManufacturerAndModel.
    rewrite (eqb_nonempty _ Hma), (eqb_nonempty _ Hmo). run_op. rewrite Hc. cbn.
    listing_tail
      (db_DeviceProfilesByManufacturerAndModel db s offset limit manufacturer model).
  - intros labels n Hc. unfold AllDeviceProfileBasicInfos. run_op. rewrite Hc. cbn.
    listing_tail (db_AllDeviceProfiles db s offset limit labels).
Qed.

(** ** Update (full replace) *)


Lemma deviceProfileUoMValidation_passes :
  forall (d : DeviceProfile) (s : σ) (tr : list (event DeviceProfileDTO)),
    uom_passes d ->
    exists vs,
      deviceProfileUoMValidation config uom d (s, tr) = (Some None, (s, tr ++ vs))
      /\ (forall e, In e vs -> exists u, e = ValidateUnit u).
Proof.
  intros d s tr [Hoff | Hall]; unfold deviceProfileUoMValidation.
  - rewrite Hoff. exists []. rewrite app_nil_r. split; [reflexivity | intros e []].
  - destruct (Writable_UoM_Validation config).
    + eexists. rewrite validateDeviceResources_all_valid by exact Hall. split; [reflexivity |].
      intros e He. apply in_map_iff in He as (x & <- & _). eexists; reflexivity.
    + exists []. rewrite app_nil_r. split; [reflexivity | intros e []].
Qed.

Ltac update_cases d :=
  repeat (match goal with
          | |- context [(0 <? ?m)%Z] => destruct (0 <? m)%Z eqn:?
          | |- context [(?m <? resourceCount ?s d)%Z] => destruct (m <? resourceCount s d)%Z eqn:?
          | |- context [db_UpdateDeviceProfile db ?s d] =>
              destruct (db_UpdateDeviceProfile db s d) as [[?|] ?] eqn:?
          | |- context [db_DeviceProfileByName db ?s (Name d)] =>
              destruct (db_DeviceProfileByName db s (Name d)) eqn:?
          end; cbn).

(** C4 (amended): for an update that passes unit validation, the capacity
    check runs exactly when MaxResources > 0; when it runs and the resource
    count implied by the update exceeds MaxResources, UpdateDeviceProfile
    fails status-conflict, the store is unchanged and no replace is
    invoked. *)
Theorem UpdateDeviceProfile_capacity_gate :
  forall (d : DeviceProfile) (s : σ) (tr : list (event DeviceProfileDTO)),
    uom_passes d ->
    (In (CallCheckResourceCapacity d)
        (snd (snd (UpdateDeviceProfile db toDTO config uom resourceCount d (s, []))))
     <-> (0 < Writable_MaxResources config)%Z)
    /\
    ((0 < Writable_MaxResources config)%Z ->
     (Writable_MaxResources config < resourceCount s d)%Z ->
     exists e tr',
       UpdateDeviceProfile db toDTO config uom resourceCount d (s, tr)
       = (Some (Some e), (s, tr ++ tr'))
       /\ Kind e = KindStatusConflict
       /\ (forall x, ~ In (CallUpdateDeviceProfile x) tr')).
Proof.
  intros d s tr Hpass. split.
  - destruct (deviceProfileUoMValidation_passes d s [] Hpass) as (vs & Hv & Hvs).
    unfold UpdateDeviceProfile, bind at 1. rewrite Hv. cbn.
    unfold checkResourceCapacityByUpdateProfile. run_op. update_cases d.
    all: rewrite ?Z.ltb_lt, ?Z.ltb_ge in *; cbn.
    all: rewrite ?in_app_iff; cbn.
    all: split; intros H; try lia; auto 6.
    all: repeat match goal with
                | H : _ \/ _ |- _ => destruct H as [H | H]
                | H : In ?x ?l, Hl : forall e, In e ?l -> _ |- _ =>
                    destruct (Hl _ H) as [? Hu]; discriminate Hu
                end; try discriminate; try contradiction.
  - intros Hpos Hover.
    destruct (deviceProfileUoMValidation_passes d s tr Hpass) as (vs & Hv & Hvs).
    unfold UpdateDeviceProfile, bind at 1. rewrite Hv. cbn.
    apply Z.ltb_lt in Hpos, Hover. rewrite Hpos.
    unfold checkResourceCapacityByUpdateProfile. run_op. rewrite Hover. cbn.
    do 2 eexists. split; [rewrite <- app_assoc; reflexivity |].
    split; [reflexivity |]. intros x Hx. apply in_app_iff in Hx as [Hx | [Hx | []]].
    + destruct (Hvs _ Hx) as [? Hu]; discriminate Hu.
    + discriminate Hx.
Qed.

(** C6: when the replace of an update commits (new store state [s']),
    UpdateDeviceProfile re-fetches the profile by its name in [s']; if the
    re-fetch fails the call returns that error although the store stays at
    [s']; if it succeeds with [p], the single update event scheduled carries
    the DTO of [p], the stored profile. *)
Theorem UpdateDeviceProfile_refetch :
  forall (d : DeviceProfile) (s s' : σ) (tr : list (event DeviceProfileDTO)),
    uom_passes d ->
    ((Writable_MaxResources config <= 0)%Z \/
     (resourceCount s d <= Writable_MaxResources config)%Z) ->
    db_UpdateDeviceProfile db s d = (None, s') ->
    (forall e,
       db_DeviceProfileByName db s' (Name d) = Err e ->
       exists tr',
         UpdateDeviceProfile db toDTO config uom resourceCount d (s, tr)
         = (Some (Some (NewCommonEdgeXWrapper e)), (s', tr ++ tr'))
         /\ In (CallUpdateDeviceProfile d) tr'
         /\ In (CallDeviceProfileByName (Name d)) tr')
    /\
    (forall p,
       db_DeviceProfileByName db s' (Name d) = Ok p ->
       exists tr',
         UpdateDeviceProfile db toDTO config uom resourceCount d (s, tr)
         = (Some None,
            (s', tr ++ tr' ++ [PublishSystemEvent SystemEventActionUpdate (toDTO p)]))
         /\ In (CallUpdateDeviceProfile d) tr'
         /\ In (CallDeviceProfileByName (Name d)) tr'
         /\ (forall a x, ~ In (PublishSystemEvent a x) tr')).
Proof.
  intros d s s' tr Hpass Hcap Hupd.
  destruct (deviceProfileUoMValidation_passes d s tr Hpass) as (vs & Hv & Hvs).
  assert (Hnotpub : forall a x, ~ In (PublishSystemEvent a x) vs)
    by (intros a x Hx; destruct (Hvs _ Hx) as [? Hu]; discriminate Hu).
  assert (Hrun : exists pre,
             UpdateDeviceProfile db toDTO config uom resourceCount d (s, tr)
             = (match db_DeviceProfileByName db s' (Name d) with
                | Ok p => fun st => (Some None,
                     (fst st, snd st ++ [PublishSystemEvent SystemEventActionUpdate (toDTO p)]))
                | Err e => fun st => (Some (Some (NewCommonEdgeXWrapper e)), st)
                end) (s', tr ++ pre ++ [CallUpdateDeviceProfile d;
                                         CallDeviceProfileByName (Name d)])
             /\ forall x, In x pre -> x = CallCheckResourceCapacity d \/ In x vs).
  { unfold UpdateDeviceProfile, bind at 1. rewrite Hv. cbn.
    unfold checkResourceCapacityByUpdateProfile. run_op.
    destruct (0 <? Writable_MaxResources config)%Z eqn:Hpos; cbn.
    - assert (Hle : (Writable_MaxResources config <? resourceCount s d)%Z = false)
        by (apply Z.ltb_ge; apply Z.ltb_lt in Hpos; lia).
      rewrite Hle. cbn. rewrite Hupd. cbn.
      exists (vs ++ [CallCheckResourceCapacity d]). split.
      + destruct (db_DeviceProfileByName db s' (Name d)); cbn;
          rewrite <- !app_assoc; reflexivity.
      + intros x Hx. apply in_app_iff in Hx as [Hx | [Hx | []]]; auto.
    - rewrite Hupd. cbn. exists vs. split.
      + destruct (db_DeviceProfileByName db s' (Name d)); cbn;
          rewrite <- !app_assoc; reflexivity.
      + auto. }
  destruct Hrun as (pre & Hrun & Hpre).
  split; [intros e Hget | intros p Hget]; rewrite Hrun, Hget; cbn.
  - exists (pre ++ [CallUpdateDeviceProfile d; CallDeviceProfileByName (Name d)]).
    split; [reflexivity |]. rewrite !in_app_iff. cbn. auto 6.
  - exists (pre ++ [CallUpdateDeviceProfile d; CallDeviceProfileByName (Name d)]).
    split; [rewrite <- !app_assoc; reflexivity |].
    rewrite !in_app_iff. cbn. split; [auto 6 |]. split; [auto 6 |].
    intros a x Hx. apply in_app_iff in Hx as [Hx | [Hx | [Hx | []]]];
      try discriminate Hx.
    destruct (Hpre _ Hx) as [Hc | Hc]; [discriminate Hc | exact (Hnotpub a x Hc)].
Qed.

(** ** Runs only append to the trace *)

Lemma frame_ret {A} (a : A) : frame (ret a).
Proof. intros s tr. cbn. rewrite app_nil_r. reflexivity. Qed.

Lemma frame_panic {A} : frame (A := A) panic.
Proof. intros s tr. cbn. rewrite app_nil_r. reflexivity. Qed.

Lemma frame_bind {A B} (m : @M σ DeviceProfileDTO A) (k : A -> @M σ DeviceProfileDTO B) :
  frame m -> (forall a, frame (k a)) -> frame (bind m k).
Proof.
  intros Hm Hk s tr. unfold bind. rewrite (Hm s tr).
  destruct (m (s, [])) as [[a|] [s1 t1]]; cbn.
  - rewrite (Hk a s1 (tr ++ t1)), (Hk a s1 t1).
    destruct (k a (s1, [])) as [o [s2 t2]]. rewrite app_assoc. reflexivity.
  - reflexivity.
Qed.

Lemma frame_dbread {A} (e : event DeviceProfileDTO) (f : σ -> A) : frame (dbread e f).
Proof. intros s tr. reflexivity. Qed.

Lemma frame_dbwrite {A} (e : event DeviceProfileDTO) (f : σ -> A * σ) : frame (dbwrite e f).
Proof. intros s tr. cbn. destruct (f s). reflexivity. Qed.

Lemma frame_publish (a : SystemEventAction) (x : DeviceProfileDTO) :
  frame (publish a x).
Proof. intros s tr. reflexivity. Qed.

Lemma frame_uomValidate (u : string) : frame (uomValidate uom u).
Proof. intros s tr. reflexivity. Qed.

Lemma frame_capacity (d : DeviceProfile) :
  frame (checkResourceCapacityByUpdateProfile config resourceCount d).
Proof. intros s tr. reflexivity. Qed.

Ltac solve_frame :=
  repeat (cbv beta zeta;
          match goal with
          | |- frame (bind _ _) => apply frame_bind; [| intros ?]
          | |- frame (ret _) => apply frame_ret
          | |- frame panic => apply frame_panic
          | |- frame (dbread _ _) => apply frame_dbread
          | |- frame (dbwrite _ _) => apply frame_dbwrite
          | |- frame (publish _ _) => apply frame_publish
          | |- frame (uomValidate _ _) => apply frame_uomValidate
          | |- frame (checkResourceCapacityByUpdateProfile _ _ _) => apply frame_capacity
          | |- frame (match ?x with _ => _ end) => destruct x
          end).

Lemma frame_validateDeviceResources (drs : list DeviceResource) :
  frame (validateDeviceResources uom drs).
Proof.
  induction drs as [| dr rest IH]; cbn; solve_frame. exact IH.
Qed.

Ltac unfold_wrappers :=
  unfold deviceProfileUoMValidation, publishUpdateDeviceProfileSystemEvent,
    dbAddDeviceProfile, dbUpdateDeviceProfile, dbDeleteDeviceProfileByName,
    dbDeviceProfileById, dbDeviceProfileByName, dbDevicesByProfileName,
    dbProvisionWatchersByProfileName, dbDeviceProfileCountByLabels,
    dbDeviceProfileCountByModel, dbDeviceProfileCountByManufacturer,
    dbDeviceProfileCountByManufacturerAndModel, dbAllDeviceProfiles,
    dbDeviceProfilesByModel, dbDeviceProfilesByManufacturer,
    dbDeviceProfilesByManufacturerAndModel.

Lemma frame_AddDeviceProfile (d : DeviceProfile) :
  frame (AddDeviceProfile db toDTO config uom d).
Proof.
  unfold AddDeviceProfile; unfold_wrappers; solve_frame.
  apply frame_validateDeviceResources.
Qed.

Lemma frame_UpdateDeviceProfile (d : DeviceProfile) :
  frame (UpdateDeviceProfile db toDTO config uom resourceCount d).
Proof.
  unfold UpdateDeviceProfile; unfold_wrappers; solve_frame.
  apply frame_validateDeviceResources.
Qed.

Lemma frame_DeleteDeviceProfileByName (name : string) :
  frame (DeleteDeviceProfileByName db toDTO config name).
Proof. unfold DeleteDeviceProfileByName; unfold_wrappers; solve_frame. Qed.

Lemma frame_PatchDeviceProfileBasicInfo (dto : UpdateDeviceProfileBasicInfo) :
  frame (PatchDeviceProfileBasicInfo db toDTO dto).
Proof.
  unfold PatchDeviceProfileBasicInfo, deviceProfileByDTO; unfold_wrappers; solve_frame.
Qed.

Lemma mutation_outcome_frame {A} (act : SystemEventAction) (success : A -> bool)
    (m : @M σ DeviceProfileDTO A) (s : σ) (tr : list (event DeviceProfileDTO)) :
  frame m -> mutation_outcome act success (m (s, [])) [] ->
  mutation_outcome act success (m (s, tr)) tr.
Proof.
  intros Hf (t & Ht & Hd). rewrite (Hf s tr).
  destruct (m (s, [])) as [o [s' t']]. cbn in *. subst t'.
  exists t. split; [reflexivity | exact Hd].
Qed.

Lemma validateDeviceResources_shape :
  forall (drs : list DeviceResource) (s : σ) (tr : list (event DeviceProfileDTO)),
    exists r vs,
      validateDeviceResources uom drs (s, tr) = (Some r, (s, tr ++ vs))
      /\ existsb is_publish vs = false.
Proof.
  induction drs as [| dr rest IH]; intros s tr; cbn.
  - exists None, []. rewrite app_nil_r. split; reflexivity.
  - run_op. destruct (uom (dr_Units dr)); cbn.
    + destruct (IH s (tr ++ [ValidateUnit (dr_Units dr)])) as (r & vs & Hv & Hp).
      exists r, (ValidateUnit (dr_Units dr) :: vs). rewrite Hv, <- app_assoc.
      split; [reflexivity | exact Hp].
    + eexists _, [ValidateUnit (dr_Units dr)]. split; reflexivity.
Qed.

Lemma deviceProfileUoMValidation_shape :
  forall (d : DeviceProfile) (s : σ) (tr : list (event DeviceProfileDTO)),
    exists r vs,
      deviceProfileUoMValidation config uom d (s, tr) = (Some r, (s, tr ++ vs))
      /\ existsb is_publish vs = false.
Proof.
  intros d s tr. unfold deviceProfileUoMValidation.
  destruct (Writable_UoM_Validation config).
  - apply validateDeviceResources_shape.
  - exists None, []. rewrite app_nil_r. split; reflexivity.
Qed.

Ltac case_store :=
  repeat (match goal with
          | |- context [match ?x with _ => _ end] =>
              lazymatch x with
              | context [match _ with _ => _ end] => fail
              | _ => destruct x eqn:?
              end
          end; cbn).

Ltac close_outcome :=
  unfold mutation_outcome, publish_discipline; cbn;
  match goal with
  | |- exists t, ?L = _ /\ _ =>
      exists L; split; [reflexivity |];
      rewrite ?existsb_app;
      repeat match goal with H : existsb is_publish _ = false |- _ => rewrite H end;
      first [ reflexivity
            | eexists _, _; split; [reflexivity |];
              rewrite ?existsb_app;
              repeat match goal with H : existsb is_publish _ = false |- _ => rewrite H end;
              reflexivity
            | exists (removelast L); eexists; split; reflexivity ]
  end.

(** Every add, update, delete and patch appends to the effect trace only;
    when it succeeds its last effect is its one system event (add, update,
    delete, update respectively) and no event precedes it; when it fails
    or panics it publishes no event. *)
Theorem mutations_publish_on_success_only :
  forall (s : σ) (tr : list (event DeviceProfileDTO)),
    (forall d, mutation_outcome SystemEventActionAdd (fun r => nil_error (snd r))
                 (AddDeviceProfile db toDTO config uom d (s, tr)) tr)
    /\ (forall d, mutation_outcome SystemEventActionUpdate nil_error
                 (UpdateDeviceProfile db toDTO config uom resourceCount d (s, tr)) tr)
    /\ (forall name, mutation_outcome SystemEventActionDelete nil_error
                 (DeleteDeviceProfileByName db toDTO config name (s, tr)) tr)
    /\ (forall dto, mutation_outcome SystemEventActionUpdate nil_error
                 (PatchDeviceProfileBasicInfo db toDTO dto (s, tr)) tr).
Proof.
  intros s tr. split; [| split; [| split]].
  - intros d. apply mutation_outcome_frame; [apply frame_AddDeviceProfile |].
    destruct (deviceProfileUoMValidation_shape d s []) as (r & vs & Hv & Hp).
    unfold AddDeviceProfile, bind at 1. rewrite Hv. cbn.
    destruct r; run_op; case_store; close_outcome.
  - intros d. apply mutation_outcome_frame; [apply frame_UpdateDeviceProfile |].
    destruct (deviceProfileUoMValidation_shape d s []) as (r & vs & Hv & Hp).
    unfold UpdateDeviceProfile, bind at 1. rewrite Hv. cbn.
    unfold checkResourceCapacityByUpdateProfile.
    destruct r; run_op; case_store; close_outcome.
  - intros name. apply mutation_outcome_frame; [apply frame_DeleteDeviceProfileByName |].
    unfold DeleteDeviceProfileByName. run_op. case_store; close_outcome.
  - intros dto. apply mutation_outcome_frame; [apply frame_PatchDeviceProfileBasicInfo |].
    unfold PatchDeviceProfileBasicInfo, deviceProfileByDTO. run_op. case_store; close_outcome.
Qed.

(** ** Queries only read *)

Lemma read_only_ret {A} (a : A) : read_only (ret a).
Proof. intros s tr. exists a, []. rewrite app_nil_r. split; reflexivity. Qed.

Lemma read_only_dbread {A} (e : event DeviceProfileDTO) (f : σ -> A) :
  is_read_call e = true -> read_only (dbread e f).
Proof. intros He s tr. exists (f s), [e]. cbn. rewrite He. split; reflexivity. Qed.

Lemma read_only_bind {A B} (m : @M σ DeviceProfileDTO A) (k : A -> @M σ DeviceProfileDTO B) :
  read_only m -> (forall a, read_only (k a)) -> read_only (bind m k).
Proof.
  intros Hm Hk s tr. destruct (Hm s tr) as (a & t & E & Ht).
  destruct (Hk a s (tr ++ t)) as (b & t' & E' & Ht').
  exists b, (t ++ t'). unfold bind. rewrite E, E', app_assoc.
  split; [reflexivity |]. rewrite forallb_app, Ht, Ht'. reflexivity.
Qed.

Ltac solve_read_only :=
  repeat (cbv beta zeta;
          match goal with
          | |- read_only (bind _ _) => apply read_only_bind; [| intros ?]
          | |- read_only (ret _) => apply read_only_ret
          | |- read_only (dbread _ _) => apply read_only_dbread; reflexivity
          | |- read_only (match ?x with _ => _ end) => destruct x
          end).

(** DeviceProfileByName and the five listing operations never panic, leave
    the store as it is and only issue store reads: no add, replace or
    delete, no unit validation and no system event. *)
Theorem queries_read_only :
  (forall name, read_only (DeviceProfileByName db toDTO name))
  /\ (forall offset limit labels, read_only (AllDeviceProfiles db toDTO offset limit labels))
  /\ (forall offset limit model,
        read_only (DeviceProfilesByModel db toDTO offset limit model))
  /\ (forall offset limit manufacturer,
        read_only (DeviceProfilesByManufacturer db toDTO offset limit manufacturer))
  /\ (forall offset limit manufacturer model,
        read_only (DeviceProfilesByManufacturerAndModel db toDTO offset limit
                     manufacturer model))
  /\ (forall offset limit labels,
        read_only (AllDeviceProfileBasicInfos db toBasicInfoDTO offset limit labels)).
Proof.
  split; [| split; [| split; [| split; [| split]]]]; intros;
    unfold DeviceProfileByName, AllDeviceProfiles, DeviceProfilesByModel,
      DeviceProfilesByManufacturer, DeviceProfilesByManufacturerAndModel,
      AllDeviceProfileBasicInfos;
    unfold_wrappers; solve_read_only.
Qed.

(** ** Get by name *)

(** DeviceProfileByName: an empty name is rejected invalid-contract before
    any store call; otherwise its one effect is the lookup by that name,
    with the store unchanged: a found profile is returned as its DTO, a
    lookup error is returned wrapped, keeping its kind. *)
Theorem DeviceProfileByName_lookup :
  forall (name : string) (s : σ) (tr : list (event DeviceProfileDTO)),
    (name = "" -> exists e,
        DeviceProfileByName db toDTO name (s, tr) = (Some (Err e), (s, tr))
        /\ Kind e = KindContractInvalid)
    /\ (forall p, name <> "" -> db_DeviceProfileByName db s name = Ok p ->
        DeviceProfileByName db toDTO name (s, tr)
        = (Some (Ok (toDTO p)), (s, tr ++ [CallDeviceProfileByName name])))
    /\ (forall e, name <> "" -> db_DeviceProfileByName db s name = Err e ->
        exists e', DeviceProfileByName db toDTO name (s, tr)
                   = (Some (Err e'), (s, tr ++ [CallDeviceProfileByName name]))
                   /\ Kind e' = Kind e).
Proof.
  intros name s tr. split; [| split].
  - intros ->. eexists. split; reflexivity.
  - intros p Hn Hp. unfold DeviceProfileByName. rewrite (eqb_nonempty _ Hn).
    run_op. rewrite Hp. reflexivity.
  - intros e Hn He. unfold DeviceProfileByName. rewrite (eqb_nonempty _ Hn).
    run_op. rewrite He. eexists. split; reflexivity.
Qed.

(** ** Profile in use *)

(** isProfileInUse reports the profile in use exactly when the store's
    device count for the name succeeds and is positive, and then with a nil
    error; a failed count is reported as not in use, together with the
    count's error wrapped, keeping its kind. *)
Theorem isProfileInUse_count :
  forall (s : σ) (name : string),
    (fst (isProfileInUse deviceCount s name) = true
     <-> exists n, deviceCount s name = Ok n /\ 0 < n)
    /\ (fst (isProfileInUse deviceCount s name) = true ->
        snd (isProfileInUse deviceCount s name) = None)
    /\ (forall e, deviceCount s name = Err e ->
        exists e', isProfileInUse deviceCount s name = (false, Some e')
                   /\ Kind e' = Kind e).
Proof.
  intros s name. unfold isProfileInUse.
  destruct (deviceCount s name) as [n | e]; cbn.
  - split; [| split].
    + rewrite Z.ltb_lt. split; [intros H; exists n; auto |].
      intros (n' & Hn' & Hpos). injection Hn' as <-. exact Hpos.
    + intros _. reflexivity.
    + intros e He. discriminate He.
  - split; [| split].
    + split; [discriminate | intros (n & Hn & _); discriminate Hn].
    + discriminate.
    + intros e' He. injection He as <-. eexists. split; reflexivity.
Qed.

(** ** Units-of-measure validation, accepting side *)

Lemma validateDeviceResources_accepts :
  forall (drs : list DeviceResource) (s : σ) (tr : list (event DeviceProfileDTO)),
    fst (validateDeviceResources uom drs (s, tr)) = Some None ->
    forallb (fun x => uom (dr_Units x)) drs = true.
Proof.
  induction drs as [| dr rest IH]; intros s tr H; cbn in *; [reflexivity |].
  revert H. run_op. destruct (uom (dr_Units dr)); cbn; [apply IH | discriminate].
Qed.

(** With the validation toggle on, deviceProfileUoMValidation accepts a
    profile exactly when every device resource's unit is accepted; an
    accepted profile has had each resource's unit validated once, in the
    order of the resources, and nothing else was done. *)
Theorem deviceProfileUoMValidation_accepts_iff :
  forall (d : DeviceProfile) (s : σ) (tr : list (event DeviceProfileDTO)),
    Writable_UoM_Validation config = true ->
    (fst (deviceProfileUoMValidation config uom d (s, tr)) = Some None
     <-> forallb (fun x => uom (dr_Units x)) (DeviceResources d) = true)
    /\ (forallb (fun x => uom (dr_Units x)) (DeviceResources d) = true ->
        deviceProfileUoMValidation config uom d (s, tr)
        = (Some None,
           (s, tr ++ map (fun x => ValidateUnit (dr_Units x)) (DeviceResources d)))).
Proof.
  intros d s tr Hon. unfold deviceProfileUoMValidation. rewrite Hon.
  split; [split |].
  - apply validateDeviceResources_accepts.
  - intros Hall. rewrite validateDeviceResources_all_valid by exact Hall. reflexivity.
  - apply validateDeviceResources_all_valid.
Qed.

(** ** Add *)

(** For a profile that passes unit validation, AddDeviceProfile returns
    the id of the record the store reports added (not the input's) with a
    nil error, and schedules one add event carrying that record's DTO; when
    the store's insert fails it returns an empty id and the insert error
    wrapped, keeping its kind, and schedules no event. *)
Theorem AddDeviceProfile_store_outcome :
  forall (d : DeviceProfile) (s : σ) (tr : list (event DeviceProfileDTO)),
    uom_passes d ->
    (forall added s', db_AddDeviceProfile db s d = (Ok added, s') ->
       exists vs,
         AddDeviceProfile db toDTO config uom d (s, tr)
         = (Some (Id added, None),
            (s', tr ++ vs ++ [CallAddDeviceProfile d;
                              PublishSystemEvent SystemEventActionAdd (toDTO added)]))
         /\ forall x, In x vs -> exists u, x = ValidateUnit u)
    /\ (forall e s', db_AddDeviceProfile db s d = (Err e, s') ->
       exists e' vs,
         AddDeviceProfile db toDTO config uom d (s, tr)
         = (Some ("", Some e'), (s', tr ++ vs ++ [CallAddDeviceProfile d]))
         /\ Kind e' = Kind e
         /\ forall x, In x vs -> exists u, x = ValidateUnit u).
Proof.
  intros d s tr Hpass.
  destruct (deviceProfileUoMValidation_passes d s tr Hpass) as (vs & Hv & Hvs).
  split.
  - intros added s' Hadd. exists vs. split; [| exact Hvs].
    unfold AddDeviceProfile, bind at 1. rewrite Hv. run_op. rewrite Hadd. cbn.
    rewrite <- !app_assoc. reflexivity.
  - intros e s' Hadd. exists (NewCommonEdgeXWrapper e), vs.
    split; [| split; [reflexivity | exact Hvs]].
    unfold AddDeviceProfile, bind at 1. rewrite Hv. run_op. rewrite Hadd. cbn.
    rewrite <- !app_assoc. reflexivity.
Qed.

(** ** Delete, committed and failing runs *)

(** With strict deletes disabled, deleting by a non-empty name whose
    profile [p] the store finds, with no device and no provision watcher
    returned by the one-row probes, performs exactly: the lookup, the two
    probes, the store's delete, and then one delete event carrying the DTO
    of [p] as it was read before the delete; the call returns nil and the
    store is the one the delete produced. *)
Theorem DeleteDeviceProfileByName_success :
  forall (name : string) (p : DeviceProfile) (s s' : σ) (tr : list (event DeviceProfileDTO)),
    Writable_ProfileChange_StrictDeviceProfileDeletes config = false ->
    name <> "" ->
    db_DeviceProfileByName db s name = Ok p ->
    db_DevicesByProfileName db s 0 1 name = Ok [] ->
    db_ProvisionWatchersByProfileName db s 0 1 name = Ok [] ->
    db_DeleteDeviceProfileByName db s name = (None, s') ->
    DeleteDeviceProfileByName db toDTO config name (s, tr)
    = (Some None,
       (s', tr ++ [CallDeviceProfileByName name; CallDevicesByProfileName 0 1 name;
                   CallProvisionWatchersByProfileName 0 1 name;
                   CallDeleteDeviceProfileByName name;
                   PublishSystemEvent SystemEventActionDelete (toDTO p)])).
Proof.
  intros name p s s' tr Hstrict Hn Hp Hdev Hpw Hdel.
  unfold DeleteDeviceProfileByName. rewrite Hstrict, (eqb_nonempty _ Hn).
  run_op. rewrite Hp. cbn. rewrite Hdev. cbn. rewrite Hpw. cbn. rewrite Hdel. cbn.
  rewrite <- !app_assoc. reflexivity.
Qed.

(** With strict deletes disabled, DeleteDeviceProfileByName rejects an
    empty name invalid-contract before any store call, and returns each
    store failure wrapped, keeping its kind, right after the failing call:
    a failed lookup, a failed device probe, a failed provision watcher
    probe, or a failed delete (the store then being the one the delete
    left); no later call is made and no event is scheduled. *)
Theorem DeleteDeviceProfileByName_store_errors :
  forall (name : string) (s : σ) (tr : list (event DeviceProfileDTO)),
    Writable_ProfileChange_StrictDeviceProfileDeletes config = false ->
    (name = "" -> exists e,
        DeleteDeviceProfileByName db toDTO config name (s, tr) = (Some (Some e), (s, tr))
        /\ Kind e = KindContractInvalid)
    /\ (forall e, name <> "" -> db_DeviceProfileByName db s name = Err e ->
        exists e', DeleteDeviceProfileByName db toDTO config name (s, tr)
          = (Some (Some e'), (s, tr ++ [CallDeviceProfileByName name]))
          /\ Kind e' = Kind e)
    /\ (forall p e, name <> "" -> db_DeviceProfileByName db s name = Ok p ->
        db_DevicesByProfileName db s 0 1 name = Err e ->
        exists e', DeleteDeviceProfileByName db toDTO config name (s, tr)
          = (Some (Some e'),
             (s, tr ++ [CallDeviceProfileByName name; CallDevicesByProfileName 0 1 name]))
          /\ Kind e' = Kind e)
    /\ (forall p e, name <> "" -> db_DeviceProfileByName db s name = Ok p ->
        db_DevicesByProfileName db s 0 1 name = Ok [] ->
        db_ProvisionWatchersByProfileName db s 0 1 name = Err e ->
        exists e', DeleteDeviceProfileByName db toDTO config name (s, tr)
          = (Some (Some e'),
             (s, tr ++ [CallDeviceProfileByName name; CallDevicesByProfileName 0 1 name;
                        CallProvisionWatchersByProfileName 0 1 name]))
          /\ Kind e' = Kind e)
    /\ (forall p e s', name <> "" -> db_DeviceProfileByName db s name = Ok p ->
        db_DevicesByProfileName db s 0 1 name = Ok [] ->
        db_ProvisionWatchersByProfileName db s 0 1 name = Ok [] ->
        db_DeleteDeviceProfileByName db s name = (Some e, s') ->
        exists e', DeleteDeviceProfileByName db toDTO config name (s, tr)
          = (Some (Some e'),
             (s', tr ++ [CallDeviceProfileByName name; CallDevicesByProfileName 0 1 name;
                         CallProvisionWatchersByProfileName 0 1 name;
                         CallDeleteDeviceProfileByName name]))
          /\ Kind e' = Kind e).
Proof.
  intros name s tr Hstrict. unfold DeleteDeviceProfileByName. rewrite Hstrict.
  split; [| split; [| split; [| split]]].
  - intros ->. eexists. split; reflexivity.
  - intros e Hn Hp. rewrite (eqb_nonempty _ Hn). run_op. rewrite Hp. cbn.
    eexists. split; reflexivity.
  - intros p e Hn Hp Hdev. rewrite (eqb_nonempty _ Hn). run_op. rewrite Hp. cbn.
    rewrite Hdev. cbn. eexists. split; [rewrite <- app_assoc; reflexivity | reflexivity].
  - intros p e Hn Hp Hdev Hpw. rewrite (eqb_nonempty _ Hn). run_op. rewrite Hp. cbn.
    rewrite Hdev. cbn. rewrite Hpw. cbn.
    eexists. split; [rewrite <- !app_assoc; reflexivity | reflexivity].
  - intros p e s' Hn Hp Hdev Hpw Hdel. rewrite (eqb_nonempty _ Hn). run_op. rewrite Hp. cbn.
    rewrite Hdev. cbn. rewrite Hpw. cbn. rewrite Hdel. cbn.
    eexists. split; [rewrite <- !app_assoc; reflexivity | reflexivity].
Qed.

(** ** Listing, served and failing windows *)

Ltac listing_rows Hc Hserv Hl :=
  run_op; rewrite Hc; cbn;
  destruct (CheckCountRange _ _ _) as [[|] ?]; cbn in Hserv; [| discriminate Hserv];
  cbn; run_op; rewrite Hl; cbn; rewrite <- app_assoc; reflexivity.

(** For every listing operation whose required filter fields are non-empty,
    once the store counts [n] matches and the count-range check lets the
    window through, the result is exactly the rows the store returned for
    that window, converted in order, with totalCount [n] and a nil error;
    the effects are the count query and the page query, and the store is
    unchanged. *)
Theorem listing_returns_store_rows :
  forall (offset limit : Z) (s : σ) (tr : list (event DeviceProfileDTO)),
    (forall labels n dps,
       db_DeviceProfileCountByLabels db s labels = Ok n ->
       fst (CheckCountRange n offset limit) = true ->
       db_AllDeviceProfiles db s offset limit labels = Ok dps ->
       AllDeviceProfiles db toDTO offset limit labels (s, tr)
       = (Some (map toDTO dps, n, None),
          (s, tr ++ [CallDeviceProfileCountByLabels labels;
                     CallAllDeviceProfiles offset limit labels])))
    /\ (forall model n dps, model <> "" ->
       db_DeviceProfileCountByModel db s model = Ok n ->
       fst (CheckCountRange n offset limit) = true ->
       db_DeviceProfilesByModel db s offset limit model = Ok dps ->
       DeviceProfilesByModel db toDTO offset limit model (s, tr)
       = (Some (map toDTO dps, n, None),
          (s, tr ++ [CallDeviceProfileCountByModel model;
                     CallDeviceProfilesByModel offset limit model])))
    /\ (forall manufacturer n dps, manufacturer <> "" ->
       db_DeviceProfileCountByManufacturer db s manufacturer = Ok n ->
       fst (CheckCountRange n offset limit) = true ->
       db_DeviceProfilesByManufacturer db s offset limit manufacturer = Ok dps ->
       DeviceProfilesByManufacturer db toDTO offset limit manufacturer (s, tr)
       = (Some (map toDTO dps, n, None),
          (s, tr ++ [CallDeviceProfileCountByManufacturer manufacturer;
                     CallDeviceProfilesByManufacturer offset limit manufacturer])))
    /\ (forall manufacturer model n dps, manufacturer <> "" -> model <> "" ->
       db_DeviceProfileCountByManufacturerAndModel db s manufacturer model = Ok n ->
       fst (CheckCountRange n offset limit) = true ->
       db_DeviceProfilesByManufacturerAndModel db s offset limit manufacturer model = Ok dps ->
       DeviceProfilesByManufacturerAndModel db toDTO offset limit manufacturer model (s, tr)
       = (Some (map toDTO dps, n, None),
          (s, tr ++ [CallDeviceProfileCountByManufacturerAndModel manufacturer model;
                     CallDeviceProfilesByManufacturerAndModel offset limit
                       manufacturer model])))
    /\ (forall labels n dps,
       db_DeviceProfileCountByLabels db s labels = Ok n ->
       fst (CheckCountRange n offset limit) = true ->
       db_AllDeviceProfiles db s offset limit labels = Ok dps ->
       AllDeviceProfileBasicInfos db toBasicInfoDTO offset limit labels (s, tr)
       = (Some (map toBasicInfoDTO dps, n, None),
          (s, tr ++ [CallDeviceProfileCountByLabels labels;
                     CallAllDeviceProfiles offset limit labels]))).
Proof.
  intros offset limit s tr. split; [| split; [| split; [| split]]].
  - intros labels n dps Hc Hserv Hl. unfold AllDeviceProfiles.
    listing_rows Hc Hserv Hl.
  - intros model n dps Hm Hc Hserv Hl. unfold DeviceProfilesByModel.
    rewrite (eqb_nonempty _ Hm). listing_rows Hc Hserv Hl.
  - intros manufacturer n dps Hm Hc Hserv Hl. unfold DeviceProfilesByManufacturer.
    rewrite (eqb_nonempty _ Hm). listing_rows Hc Hserv Hl.
  - intros manufacturer model n dps Hma Hmo Hc Hserv Hl.
    unfold DeviceProfilesByManufacturerAndModel.
    rewrite (eqb_nonempty _ Hma), (eqb_nonempty _ Hmo). listing_rows Hc Hserv Hl.
  - intros labels n dps Hc Hserv Hl. unfold AllDeviceProfileBasicInfos.
    listing_rows Hc Hserv Hl.
Qed.

Ltac listing_count_error Hc :=
  run_op; rewrite Hc; cbn; do 2 eexists; split; reflexivity.

Ltac listing_page_error Hc Hserv Hl :=
  run_op; rewrite Hc; cbn;
  destruct (CheckCountRange _ _ _) as [[|] ?]; cbn in Hserv; [| discriminate Hserv];
  cbn; run_op; rewrite Hl; cbn; eexists;
  split; [rewrite <- app_assoc; reflexivity | reflexivity].

(** For every listing operation whose required filter fields are non-empty,
    a failed count query ends the call at once: empty page, the count's
    error wrapped, keeping its kind, and no page query; a page query that
    fails after the window was let through returns an empty page, the
    counted total, and the page query's error wrapped, keeping its kind. *)
Theorem listing_store_errors :
  forall (offset limit : Z) (s : σ) (tr : list (event DeviceProfileDTO)),
    (forall labels e,
       db_DeviceProfileCountByLabels db s labels = Err e ->
       exists n e', AllDeviceProfiles db toDTO offset limit labels (s, tr)
         = (Some ([], n, Some e'), (s, tr ++ [CallDeviceProfileCountByLabels labels]))
         /\ Kind e' = Kind e)
    /\ (forall labels n e,
       db_DeviceProfileCountByLabels db s labels = Ok n ->
       fst (CheckCountRange n offset limit) = true ->
       db_AllDeviceProfiles db s offset limit labels = Err e ->
       exists e', AllDeviceProfiles db toDTO offset limit labels (s, tr)
         = (Some ([], n, Some e'),
            (s, tr ++ [CallDeviceProfileCountByLabels labels;
                       CallAllDeviceProfiles offset limit labels]))
         /\ Kind e' = Kind e)
    /\ (forall model e, model <> "" ->
       db_DeviceProfileCountByModel db s model = Err e ->
       exists n e', DeviceProfilesByModel db toDTO offset limit model (s, tr)
         = (Some ([], n, Some e'), (s, tr ++ [CallDeviceProfileCountByModel model]))
         /\ Kind e' = Kind e)
    /\ (forall model n e, model <> "" ->
       db_DeviceProfileCountByModel db s model = Ok n ->
       fst (CheckCountRange n offset limit) = true ->
       db_DeviceProfilesByModel db s offset limit model = Err e ->
       exists e', DeviceProfilesByModel db toDTO offset limit model (s, tr)
         = (Some ([], n, Some e'),
            (s, tr ++ [CallDeviceProfileCountByModel model;
                       CallDeviceProfilesByModel offset limit model]))
         /\ Kind e' = Kind e)
    /\ (forall manufacturer e, manufacturer <> "" ->
       db_DeviceProfileCountByManufacturer db s manufacturer = Err e ->
       exists n e', DeviceProfilesByManufacturer db toDTO offset limit manufacturer (s, tr)
         = (Some ([], n, Some e'),
            (s, tr ++ [CallDeviceProfileCountByManufacturer manufacturer]))
         /\ Kind e' = Kind e)
    /\ (forall manufacturer n e, manufacturer <> "" ->
       db_DeviceProfileCountByManufacturer db s manufacturer = Ok n ->
       fst (CheckCountRange n offset limit) = true ->
       db_DeviceProfilesByManufacturer db s offset limit manufacturer = Err e ->
       exists e', DeviceProfilesByManufacturer db toDTO offset limit manufacturer (s, tr)
         = (Some ([], n, Some e'),
            (s, tr ++ [CallDeviceProfileCountByManufacturer manufacturer;
                       CallDeviceProfilesByManufacturer offset limit manufacturer]))
         /\ Kind e' = Kind e)
    /\ (forall manufacturer model e, manufacturer <> "" -> model <> "" ->
       db_DeviceProfileCountByManufacturerAndModel db s manufacturer model = Err e ->
       exists n e', DeviceProfilesByManufacturerAndModel db toDTO offset limit
                      manufacturer model (s, tr)
         = (Some ([], n, Some e'),
            (s, tr ++ [CallDeviceProfileCountByManufacturerAndModel manufacturer model]))
         /\ Kind e' = Kind e)
    /\ (forall manufacturer model n e, manufacturer <> "" -> model <> "" ->
       db_DeviceProfileCountByManufacturerAndModel db s manufacturer model = Ok n ->
       fst (CheckCountRange n offset limit) = true ->
       db_DeviceProfilesByManufacturerAndModel db s offset limit manufacturer model = Err e ->
       exists e', DeviceProfilesByManufacturerAndModel db toDTO offset limit
                    manufacturer model (s, tr)
         = (Some ([], n, Some e'),
            (s, tr ++ [CallDeviceProfileCountByManufacturerAndModel manufacturer model;
                       CallDeviceProfilesByManufacturerAndModel offset limit
                         manufacturer model]))
         /\ Kind e' = Kind e)
    /\ (forall labels e,
       db_DeviceProfileCountByLabels db s labels = Err e ->
       exists n e', AllDeviceProfileBasicInfos db toBasicInfoDTO offset limit labels (s, tr)
         = (Some ([], n, Some e'), (s, tr ++ [CallDeviceProfileCountByLabels labels]))
         /\ Kind e' = Kind e)
    /\ (forall labels n e,
       db_DeviceProfileCountByLabels db s labels = Ok n ->
       fst (CheckCountRange n offset limit) = true ->
       db_AllDeviceProfiles db s offset limit labels = Err e ->
       exists e', AllDeviceProfileBasicInfos db toBasicInfoDTO offset limit labels (s, tr)
         = (Some ([], n, Some e'),
            (s, tr ++ [CallDeviceProfileCountByLabels labels;
                       CallAllDeviceProfiles offset limit labels]))
         /\ Kind e' = Kind e).
Proof.
  intros offset limit s tr.
  repeat split.
  all: intros; unfold AllDeviceProfiles, DeviceProfilesByModel, DeviceProfilesByManufacturer,
         DeviceProfilesByManufacturerAndModel, AllDeviceProfileBasicInfos;
       rewrite ?eqb_nonempty by assumption.
  all: match goal with
       | Hc : _ = Err _ |- exists _ _, _ => listing_count_error Hc
       | Hc : _ = Ok _, Hserv : fst _ = true, Hl : _ = Err _ |- _ =>
           listing_page_error Hc Hserv Hl
       end.
Qed.

(** AllDeviceProfileBasicInfos makes the same store calls as
    AllDeviceProfiles, ends in the same store and trace, and returns the
    same totalCount and error; its page is the basic-info conversion of the
    very rows whose full conversion AllDeviceProfiles returns. *)
Theorem AllDeviceProfileBasicInfos_mirrors_AllDeviceProfiles :
  forall (offset limit : Z) (labels : list string) (st : σ * list (event DeviceProfileDTO)),
    snd (AllDeviceProfileBasicInfos db toBasicInfoDTO offset limit labels st)
    = snd (AllDeviceProfiles db toDTO offset limit labels st)
    /\ exists dps n err,
         fst (AllDeviceProfileBasicInfos db toBasicInfoDTO offset limit labels st)
         = Some (map toBasicInfoDTO dps, n, err)
         /\ fst (AllDeviceProfiles db toDTO offset limit labels st)
            = Some (map toDTO dps, n, err).
Proof.
  intros offset limit labels [s tr].
  unfold AllDeviceProfileBasicInfos, AllDeviceProfiles. run_op.
  destruct (db_DeviceProfileCountByLabels db s labels) as [n | e]; cbn.
  - destruct (CheckCountRange n offset limit) as [[|] err]; cbn.
    + run_op. destruct (db_AllDeviceProfiles db s offset limit labels) as [dps | e]; cbn.
      * split; [reflexivity |]. exists dps, n, None. split; reflexivity.
      * split; [reflexivity |]. exists [], n, (Some (NewCommonEdgeXWrapper e)).
        split; reflexivity.
    + split; [reflexivity |]. exists [], n, err. split; reflexivity.
  - split; [reflexivity |]. exists [], 0, (Some (NewCommonEdgeXWrapper e)).
    split; reflexivity.
Qed.

(** ** Patch, committed run *)

(** A patch resolved to the stored profile [p] (by its non-empty Id, or by
    its Name when the Id is nil or empty), whose Name, if given, equals
    [p]'s name, writes back [p] with the patch's basic fields applied and
    schedules one update event carrying the DTO of that written profile
    (no re-fetch); the call returns nil and the store is the one the
    replace produced. *)
Theorem PatchDeviceProfileBasicInfo_writes_merged :
  forall (dto : UpdateDeviceProfileBasicInfo) (p : DeviceProfile) (s s' : σ)
         (tr : list (event DeviceProfileDTO)) (lookup : event DeviceProfileDTO),
    ((exists id, dto_Id dto = Some id /\ id <> "" /\
                 db_DeviceProfileById db s id = Ok p /\ lookup = CallDeviceProfileById id)
     \/ ((dto_Id dto = None \/ dto_Id dto = Some "") /\
         exists n, dto_Name dto = Some n /\ db_DeviceProfileByName db s n = Ok p
                   /\ lookup = CallDeviceProfileByName n)) ->
    match dto_Name dto with Some n => n = Name p | None => True end ->
    db_UpdateDeviceProfile db s (ReplaceDeviceProfileModelBasicInfoFieldsWithDTO p dto)
      = (None, s') ->
    PatchDeviceProfileBasicInfo db toDTO dto (s, tr)
    = (Some None,
       (s', tr ++ [lookup;
                   CallUpdateDeviceProfile (ReplaceDeviceProfileModelBasicInfoFieldsWithDTO p dto);
                   PublishSystemEvent SystemEventActionUpdate
                     (toDTO (ReplaceDeviceProfileModelBasicInfoFieldsWithDTO p dto))])).
Proof.
  intros dto p s s' tr lookup Hres Hname Hupd.
  assert (Hby : deviceProfileByDTO db dto (s, tr) = (Some (Ok p), (s, tr ++ [lookup]))).
  { unfold deviceProfileByDTO.
    destruct Hres as [(id & Hid & Hne & Hp & ->) | (Hid & n & Hn & Hp & ->)].
    - rewrite Hid, (eqb_nonempty _ Hne). run_op. rewrite Hp. cbn.
      destruct (dto_Name dto) as [n|]; [| reflexivity].
      subst n. rewrite String.eqb_refl. reflexivity.
    - rewrite Hn in Hname |- *. subst n.
      destruct Hid as [Hid | Hid]; rewrite Hid; run_op; rewrite Hp; cbn;
        rewrite String.eqb_refl; reflexivity. }
  unfold PatchDeviceProfileBasicInfo, bind at 1. rewrite Hby. run_op. rewrite Hupd. cbn.
  rewrite <- !app_assoc. reflexivity.
Qed.

(** ** Update, failing replace *)

(** For an update that passes unit validation and the capacity check (or
    has it disabled), a failing replace ends the call with the replace's
    error wrapped: the replace is the last effect, so there is no re-fetch
    and no event, and the store is the one the replace left. *)
Theorem UpdateDeviceProfile_replace_error :
  forall (d : DeviceProfile) (s s' : σ) (e : edgex) (tr : list (event DeviceProfileDTO)),
    uom_passes d ->
    ((Writable_MaxResources config <= 0)%Z \/
     (resourceCount s d <= Writable_MaxResources config)%Z) ->
    db_UpdateDeviceProfile db s d = (Some e, s') ->
    exists pre,
      UpdateDeviceProfile db toDTO config uom resourceCount d (s, tr)
      = (Some (Some (NewCommonEdgeXWrapper e)),
         (s', tr ++ pre ++ [CallUpdateDeviceProfile d]))
      /\ forall x, In x pre -> x = CallCheckResourceCapacity d \/ exists u, x = ValidateUnit u.
Proof.
  intros d s s' e tr Hpass Hcap Hupd.
  destruct (deviceProfileUoMValidation_passes d s tr Hpass) as (vs & Hv & Hvs).
  unfold UpdateDeviceProfile, bind at 1. rewrite Hv. cbn.
  unfold checkResourceCapacityByUpdateProfile. run_op.
  destruct (0 <? Writable_MaxResources config)%Z eqn:Hpos; cbn.
  - assert (Hle : (Writable_MaxResources config <? resourceCount s d)%Z = false)
      by (apply Z.ltb_ge; apply Z.ltb_lt in Hpos; lia).
    rewrite Hle. cbn. rewrite Hupd. cbn.
    exists (vs ++ [CallCheckResourceCapacity d]). split.
    + rewrite <- !app_assoc. reflexivity.
    + intros x Hx. apply in_app_iff in Hx as [Hx | [Hx | []]]; auto.
  - rewrite Hupd. cbn. exists vs. split.
    + rewrite <- !app_assoc. reflexivity.
    + auto.
Qed.

End ProfileProperties.

(** * Properties of the notification service's configuration update *)

Section NotificationsConfigProperties.

Context (ClientsCollection Database RegistryInfo ServiceInfo MessageBusInfo
         InsecureSecrets TelemetryInfo : Type).
Context (InsecureSecrets_zero : InsecureSecrets) (TelemetryInfo_zero : TelemetryInfo).

Local Abbreviation Conf := (ConfigurationStruct ClientsCollection Database RegistryInfo
                          ServiceInfo MessageBusInfo InsecureSecrets TelemetryInfo).
Local Abbreviation Any := (any ClientsCollection Database RegistryInfo ServiceInfo
                         MessageBusInfo InsecureSecrets TelemetryInfo).

(** C10 (amended): UpdateFromRaw returns true and replaces the whole
    configuration exactly when the raw value is a non-nil
    [*ConfigurationStruct]; a nil [*ConfigurationStruct] makes it panic
    on the dereference; any other value (untyped nil included) makes it
    return false with the configuration unchanged. UpdateWritableFromRaw
    behaves the same for [*WritableInfo], replacing only the Writable
    section and keeping every other section. *)
Theorem UpdateFromRaw_type_assertion :
  forall c : Conf,
    (forall conf, UpdateFromRaw _ _ _ _ _ _ _ c (AnyConfigurationStructPtr _ _ _ _ _ _ _ (Some conf))
                  = Some (true, conf))
    /\ UpdateFromRaw _ _ _ _ _ _ _ c (AnyConfigurationStructPtr _ _ _ _ _ _ _ None) = None
    /\ (forall raw : Any,
          (forall p, raw <> AnyConfigurationStructPtr _ _ _ _ _ _ _ p) ->
          UpdateFromRaw _ _ _ _ _ _ _ c raw = Some (false, c))
    /\ (forall w, exists c',
          UpdateWritableFromRaw _ _ _ _ _ _ _ c (AnyWritableInfoPtr _ _ _ _ _ _ _ (Some w))
            = Some (true, c')
          /\ Writable _ _ _ _ _ _ _ c' = w
          /\ Clients _ _ _ _ _ _ _ c' = Clients _ _ _ _ _ _ _ c
          /\ Database_ _ _ _ _ _ _ _ c' = Database_ _ _ _ _ _ _ _ c
          /\ Registry _ _ _ _ _ _ _ c' = Registry _ _ _ _ _ _ _ c
          /\ Service _ _ _ _ _ _ _ c' = Service _ _ _ _ _ _ _ c
          /\ MessageBus _ _ _ _ _ _ _ c' = MessageBus _ _ _ _ _ _ _ c
          /\ Smtp _ _ _ _ _ _ _ c' = Smtp _ _ _ _ _ _ _ c
          /\ Retention _ _ _ _ _ _ _ c' = Retention _ _ _ _ _ _ _ c)
    /\ UpdateWritableFromRaw _ _ _ _ _ _ _ c (AnyWritableInfoPtr _ _ _ _ _ _ _ None) = None
    /\ (forall raw : Any,
          (forall p, raw <> AnyWritableInfoPtr _ _ _ _ _ _ _ p) ->
          UpdateWritableFromRaw _ _ _ _ _ _ _ c raw = Some (false, c)).
Proof.
  intros c. split; [| split; [| split; [| split; [| split]]]].
  - intros conf. reflexivity.
  - reflexivity.
  - intros raw Hraw. destruct raw; try reflexivity. exfalso. exact (Hraw p eq_refl).
  - intros w. eexists. repeat split; reflexivity.
  - reflexivity.
  - intros raw Hraw. destruct raw; try reflexivity. exfalso. exact (Hraw p eq_refl).
Qed.

(** Whatever its argument, UpdateWritableFromRaw never changes what
    GetBootstrap, GetRegistryInfo and GetDatabaseInfo report; when it
    returns true the argument was a non-nil [*WritableInfo] [w] and
    GetLogLevel, GetInsecureSecrets and GetTelemetryInfo then report [w]'s
    values; when it returns false the configuration is unchanged. *)
Theorem UpdateWritableFromRaw_keeps_bootstrap :
  forall (c c' : Conf) (raw : Any) (b : bool),
    UpdateWritableFromRaw _ _ _ _ _ _ _ c raw = Some (b, c') ->
    GetBootstrap c' = GetBootstrap c
    /\ GetRegistryInfo c' = GetRegistryInfo c
    /\ GetDatabaseInfo c' = GetDatabaseInfo c
    /\ (b = true -> exists w,
          raw = AnyWritableInfoPtr _ _ _ _ _ _ _ (Some w)
          /\ GetLogLevel c' = LogLevel _ _ w
          /\ GetInsecureSecrets c' = Writable_InsecureSecrets _ _ w
          /\ GetTelemetryInfo c' = Some (Writable_Telemetry _ _ w))
    /\ (b = false -> c' = c).
Proof.
  intros c c' raw b H.
  destruct raw as [| p | [w|] | v | v | name]; cbn in H; try discriminate H;
    injection H as <- <-;
    repeat split; try reflexivity; try discriminate.
  intros _. exists w. repeat split; reflexivity.
Qed.

(** The writable pointers the configuration hands out are exactly what the
    writable update accepts and the full update rejects: feeding
    GetWritablePtr back returns true and changes nothing, and feeding
    EmptyWritablePtr returns true and resets the Writable section to its
    zero value (empty log level and interval, resend limit 0) while the
    bootstrap sections stay; UpdateFromRaw returns false on both and leaves
    the configuration unchanged. *)
Theorem writable_pointers_roundtrip :
  forall c : Conf,
    UpdateWritableFromRaw _ _ _ _ _ _ _ c (GetWritablePtr c) = Some (true, c)
    /\ UpdateFromRaw _ _ _ _ _ _ _ c (GetWritablePtr c) = Some (false, c)
    /\ UpdateFromRaw _ _ _ _ _ _ _ c
         (EmptyWritablePtr InsecureSecrets_zero TelemetryInfo_zero c) = Some (false, c)
    /\ exists c',
         UpdateWritableFromRaw _ _ _ _ _ _ _ c
           (EmptyWritablePtr InsecureSecrets_zero TelemetryInfo_zero c) = Some (true, c')
         /\ GetLogLevel c' = ""
         /\ ResendLimit _ _ (Writable _ _ _ _ _ _ _ c') = 0
         /\ ResendInterval _ _ (Writable _ _ _ _ _ _ _ c') = ""
         /\ GetInsecureSecrets c' = InsecureSecrets_zero
         /\ GetBootstrap c' = GetBootstrap c.
Proof.
  intros [w cl d r sv mb sm rt]. split; [| split; [| split]].
  - destruct w. reflexivity.
  - reflexivity.
  - reflexivity.
  - eexists. repeat split; reflexivity.
Qed.

End NotificationsConfigProperties.

(** * The properties on concrete inputs *)

Local Open Scope list_scope.

(** C3 at a name that is not stored. *)
Lemma DeleteDeviceProfileByName_strict_locked_witness :
  exists e,
    DeleteDeviceProfileByName memDB idDTO cfgStrict "No-Such-Profile" (sampleStore, [])
    = (Some (Some e), (sampleStore, [])) /\ Kind e = KindServiceLocked.
Proof.
  apply (DeleteDeviceProfileByName_strict_locked memDB idDTO cfgStrict
           "No-Such-Profile" sampleStore []).
  reflexivity.
Defined.

(** C1: "Temp-Sensor-X" is referenced by device "sensor-1". *)
Lemma DeleteDeviceProfileByName_referenced_conflict_witness :
  exists e tr',
    DeleteDeviceProfileByName memDB idDTO cfgOff "Temp-Sensor-X" (sampleStore, [])
    = (Some (Some e), (sampleStore, [] ++ tr'))
    /\ Kind e = KindStatusConflict
    /\ In (CallDevicesByProfileName 0 1 "Temp-Sensor-X") tr'
    /\ (forall x, ~ In (CallDeleteDeviceProfileByName x) tr').
Proof.
  apply (DeleteDeviceProfileByName_referenced_conflict memDB idDTO cfgOff
           "Temp-Sensor-X" tempSensor sampleStore []).
  - reflexivity.
  - discriminate.
  - reflexivity.
  - left. do 2 eexists. reflexivity.
Defined.

(** C1 does not hold as stated: with strict deletes enabled, deleting the
    stored and referenced "Temp-Sensor-X" fails service-locked, not
    status-conflict. *)
Lemma DeleteDeviceProfileByName_strict_referenced_not_conflict :
  db_DeviceProfileByName memDB sampleStore "Temp-Sensor-X" = Ok tempSensor
  /\ db_DevicesByProfileName memDB sampleStore 0 1 "Temp-Sensor-X"
     = Ok [mkDevice "sensor-1" "Temp-Sensor-X"]
  /\ exists e,
       DeleteDeviceProfileByName memDB idDTO cfgStrict "Temp-Sensor-X" (sampleStore, [])
       = (Some (Some e), (sampleStore, []))
       /\ Kind e = KindServiceLocked /\ Kind e <> KindStatusConflict.
Proof.
  split; [reflexivity |]. split; [reflexivity |].
  eexists. split; [reflexivity |]. split; [reflexivity | discriminate].
Qed.

(** C2 on [hygroSensor], whose "humidity" resource has unit "Kelvin". *)
Lemma deviceProfile_UoM_invalid_rejected_witness :
  let err := NewCommonEdgeXWrapper (NewCommonEdgeX KindContractInvalid
               "DeviceResource humidity units Kelvin is invalid") in
  AddDeviceProfile memDB idDTO cfgUoM sampleUoM hygroSensor (sampleStore, [])
  = (Some ("", Some err), (sampleStore, [ValidateUnit "Celsius"; ValidateUnit "Kelvin"]))
  /\ UpdateDeviceProfile memDB idDTO cfgUoM sampleUoM memResourceCount hygroSensor
       (sampleStore, [])
     = (Some (Some err), (sampleStore, [ValidateUnit "Celsius"; ValidateUnit "Kelvin"])).
Proof.
  exact (proj1 (deviceProfile_UoM_invalid_rejected memDB idDTO cfgUoM sampleUoM
                  memResourceCount)
           hygroSensor [mkDeviceResource "temperature" "Celsius"]
           (mkDeviceResource "humidity" "Kelvin") [] sampleStore []
           eq_refl eq_refl eq_refl eq_refl).
Defined.

(** C9 on a patch with neither Id nor Name. *)
Lemma deviceProfileByDTO_panics_iff_witness :
  fst (deviceProfileByDTO memDB nilPatch (sampleStore, [] : list (event DeviceProfile)))
  = None.
Proof.
  apply (proj2 (proj1 (deviceProfileByDTO_panics_iff memDB idDTO nilPatch
                         (sampleStore, [])))).
  split; [left; reflexivity | reflexivity].
Defined.

(** C5: the patch resolves "id-Temp-Sensor-X" by id and carries the name
    "Renamed". *)
Lemma PatchDeviceProfileBasicInfo_name_mismatch_witness :
  exists e,
    PatchDeviceProfileBasicInfo memDB idDTO renamePatch (sampleStore, [])
    = (Some (Some e), (sampleStore, [CallDeviceProfileById "id-Temp-Sensor-X"]))
    /\ Kind e = KindContractInvalid.
Proof.
  apply (PatchDeviceProfileBasicInfo_name_mismatch memDB idDTO renamePatch "Renamed"
           tempSensor sampleStore []).
  - reflexivity.
  - reflexivity.
  - discriminate.
Defined.

(** C7: one profile matches, the window starts at offset 5. *)
Lemma listing_totalCount_witness :
  listing_outcome 1 5 10 (fst (AllDeviceProfiles memDB idDTO 5 10 [] (sampleStore, []))).
Proof.
  apply (proj1 (listing_totalCount memDB idDTO idDTO 5 10 sampleStore [])).
  reflexivity.
Defined.

(** C4 on [tempSensor2]: two resources against MaxResources = 1. *)
Lemma UpdateDeviceProfile_capacity_gate_witness :
  exists e tr',
    UpdateDeviceProfile memDB idDTO cfgCap sampleUoM memResourceCount tempSensor2
      (sampleStore, [])
    = (Some (Some e), (sampleStore, [] ++ tr'))
    /\ Kind e = KindStatusConflict
    /\ (forall x, ~ In (CallUpdateDeviceProfile x) tr').
Proof.
  apply (proj2 (UpdateDeviceProfile_capacity_gate memDB idDTO cfgCap sampleUoM
                  memResourceCount tempSensor2 sampleStore [] (or_intror eq_refl))).
  - reflexivity.
  - reflexivity.
Defined.

(** C4 does not hold as stated: MaxResources is 1 > 0, yet the update of
    [hygroSensor] never runs the capacity check, as it fails unit
    validation first. *)
Lemma UpdateDeviceProfile_uom_failure_skips_capacity :
  (0 < Writable_MaxResources cfgCap)%Z
  /\ ~ In (CallCheckResourceCapacity hygroSensor)
         (snd (snd (UpdateDeviceProfile memDB idDTO cfgCap sampleUoM memResourceCount
                      hygroSensor (sampleStore, [])))).
Proof.
  split; [reflexivity |].
  vm_compute. intros [H | [H | []]]; discriminate H.
Qed.

(** C6: the update of "Temp-Sensor-X" commits, the re-fetch succeeds and
    the update event carries the stored [tempSensor2]. *)
Lemma UpdateDeviceProfile_refetch_witness :
  exists tr',
    UpdateDeviceProfile memDB idDTO cfgOff sampleUoM memResourceCount tempSensor2
      (sampleStore, [])
    = (Some None,
       (updatedStore,
        [] ++ tr' ++ [PublishSystemEvent SystemEventActionUpdate (idDTO tempSensor2)]))
    /\ In (CallUpdateDeviceProfile tempSensor2) tr'
    /\ In (CallDeviceProfileByName (Name tempSensor2)) tr'
    /\ (forall a x, ~ In (PublishSystemEvent a x) tr').
Proof.
  apply (proj2 (UpdateDeviceProfile_refetch memDB idDTO cfgOff sampleUoM memResourceCount
                  tempSensor2 sampleStore updatedStore [] (or_introl eq_refl)
                  (or_introl (Z.le_refl 0)) eq_refl)).
  reflexivity.
Defined.

(** C10 on a raw value of another type. *)
Lemma UpdateFromRaw_type_assertion_witness :
  UpdateFromRaw unit unit unit unit unit unit unit sampleConfiguration
    (AnyOther unit unit unit unit unit unit unit "string")
  = Some (false, sampleConfiguration).
Proof.
  apply (proj1 (proj2 (proj2 (UpdateFromRaw_type_assertion
                                unit unit unit unit unit unit unit sampleConfiguration)))).
  intros p. discriminate.
Defined.

(** C10 does not hold as stated: a nil [*ConfigurationStruct] has the
    expected dynamic type, yet UpdateFromRaw panics instead of returning
    true. *)
Lemma UpdateFromRaw_nil_pointer_panics :
  UpdateFromRaw unit unit unit unit unit unit unit sampleConfiguration
    (AnyConfigurationStructPtr unit unit unit unit unit unit unit None) = None.
Proof. reflexivity. Qed.

(** * Further properties on concrete inputs *)

(** "Temp-Sensor-X" is found by name. *)
Lemma DeviceProfileByName_lookup_witness :
  DeviceProfileByName memDB idDTO "Temp-Sensor-X" (sampleStore, [])
  = (Some (Ok (idDTO tempSensor)),
     (sampleStore, [] ++ [CallDeviceProfileByName "Temp-Sensor-X"])).
Proof.
  apply (proj1 (proj2 (DeviceProfileByName_lookup memDB idDTO "Temp-Sensor-X"
                         sampleStore [])) tempSensor).
  - discriminate.
  - reflexivity.
Defined.

(** "Temp-Sensor-X" is used by one device; a failing count is not "in use". *)
Lemma isProfileInUse_count_witness :
  fst (isProfileInUse memDeviceCount sampleStore "Temp-Sensor-X") = true
  /\ exists e', isProfileInUse (fun (_ : MemStore) (_ : string) => Err dbDown)
                  sampleStore "Temp-Sensor-X" = (false, Some e')
                /\ Kind e' = Kind dbDown.
Proof.
  split.
  - apply (proj2 (proj1 (isProfileInUse_count memDeviceCount sampleStore "Temp-Sensor-X"))).
    exists 1. split; [reflexivity | lia].
  - apply (proj2 (proj2 (isProfileInUse_count (fun (_ : MemStore) (_ : string) => Err dbDown)
                           sampleStore "Temp-Sensor-X")) dbDown).
    reflexivity.
Defined.

(** Both units of [tempSensor2] are recognised. *)
Lemma deviceProfileUoMValidation_accepts_iff_witness :
  deviceProfileUoMValidation cfgUoM sampleUoM tempSensor2
    (sampleStore, [] : list (event DeviceProfile))
  = (Some None, (sampleStore, [] ++ [ValidateUnit "Celsius"; ValidateUnit "Fahrenheit"])).
Proof.
  apply (proj2 (deviceProfileUoMValidation_accepts_iff (σ := MemStore)
                  (DeviceProfileDTO := DeviceProfile) cfgUoM sampleUoM tempSensor2
                  sampleStore [] eq_refl)).
  reflexivity.
Defined.

(** Adding [hygroSensor] with validation off: the store assigns its id. *)
Lemma AddDeviceProfile_store_outcome_witness :
  exists vs,
    AddDeviceProfile memDB idDTO cfgOff sampleUoM hygroSensor (sampleStore, [])
    = (Some (Id hygroAdded, None),
       (hygroAddStore, [] ++ vs ++ [CallAddDeviceProfile hygroSensor;
                                    PublishSystemEvent SystemEventActionAdd (idDTO hygroAdded)]))
    /\ forall x, In x vs -> exists u, x = ValidateUnit u.
Proof.
  apply (proj1 (AddDeviceProfile_store_outcome memDB idDTO cfgOff sampleUoM hygroSensor
                  sampleStore [] (or_introl eq_refl)) hygroAdded hygroAddStore).
  reflexivity.
Defined.

(** "Hygro-Sensor" is stored and unreferenced. *)
Lemma DeleteDeviceProfileByName_success_witness :
  DeleteDeviceProfileByName memDB idDTO cfgOff "Hygro-Sensor" (hygroStore, [])
  = (Some None,
     (setProfiles hygroStore [tempSensor],
      [] ++ [CallDeviceProfileByName "Hygro-Sensor"; CallDevicesByProfileName 0 1 "Hygro-Sensor";
             CallProvisionWatchersByProfileName 0 1 "Hygro-Sensor";
             CallDeleteDeviceProfileByName "Hygro-Sensor";
             PublishSystemEvent SystemEventActionDelete (idDTO hygroAdded)])).
Proof.
  apply (DeleteDeviceProfileByName_success memDB idDTO cfgOff "Hygro-Sensor" hygroAdded
           hygroStore (setProfiles hygroStore [tempSensor]) []).
  - reflexivity.
  - discriminate.
  - reflexivity.
  - reflexivity.
  - reflexivity.
  - reflexivity.
Defined.

(** "No-Such-Profile" is not stored. *)
Lemma DeleteDeviceProfileByName_store_errors_witness :
  exists e',
    DeleteDeviceProfileByName memDB idDTO cfgOff "No-Such-Profile" (sampleStore, [])
    = (Some (Some e'), (sampleStore, [] ++ [CallDeviceProfileByName "No-Such-Profile"]))
    /\ Kind e' = Kind (notFound "device profile").
Proof.
  apply (proj1 (proj2 (DeleteDeviceProfileByName_store_errors memDB idDTO cfgOff
                         "No-Such-Profile" sampleStore [] eq_refl))
           (notFound "device profile")).
  - discriminate.
  - reflexivity.
Defined.

(** The first page of ten of the unlabelled listing. *)
Lemma listing_returns_store_rows_witness :
  AllDeviceProfiles memDB idDTO 0 10 [] (sampleStore, [])
  = (Some (map idDTO [tempSensor], 1, None),
     (sampleStore, [] ++ [CallDeviceProfileCountByLabels []; CallAllDeviceProfiles 0 10 []])).
Proof.
  apply (proj1 (listing_returns_store_rows memDB idDTO idDTO 0 10 sampleStore [])
           [] 1 [tempSensor]).
  - reflexivity.
  - reflexivity.
  - reflexivity.
Defined.

(** The unlabelled listing against a store that is down. *)
Lemma listing_store_errors_witness :
  exists n e',
    AllDeviceProfiles downDB idDTO 0 10 [] (sampleStore, [])
    = (Some ([] : list DeviceProfile, n, Some e'),
       (sampleStore, [] ++ [CallDeviceProfileCountByLabels []]))
    /\ Kind e' = Kind dbDown.
Proof.
  apply (proj1 (listing_store_errors downDB idDTO idDTO 0 10 sampleStore []) [] dbDown).
  reflexivity.
Defined.

(** [descPatch] resolves "Temp-Sensor-X" by id and changes its description. *)
Lemma PatchDeviceProfileBasicInfo_writes_merged_witness :
  PatchDeviceProfileBasicInfo memDB idDTO descPatch (sampleStore, [])
  = (Some None,
     (descPatchedStore,
      [] ++ [CallDeviceProfileById "id-Temp-Sensor-X";
             CallUpdateDeviceProfile
               (ReplaceDeviceProfileModelBasicInfoFieldsWithDTO tempSensor descPatch);
             PublishSystemEvent SystemEventActionUpdate
               (idDTO (ReplaceDeviceProfileModelBasicInfoFieldsWithDTO tempSensor descPatch))])).
Proof.
  apply (PatchDeviceProfileBasicInfo_writes_merged memDB idDTO descPatch tempSensor
           sampleStore descPatchedStore [] (CallDeviceProfileById "id-Temp-Sensor-X")).
  - left. exists "id-Temp-Sensor-X".
    split; [reflexivity | split; [discriminate | split; reflexivity]].
  - reflexivity.
  - reflexivity.
Defined.

(** Replacing the unstored [hygroSensor] fails in the store. *)
Lemma UpdateDeviceProfile_replace_error_witness :
  exists pre,
    UpdateDeviceProfile memDB idDTO cfgOff sampleUoM memResourceCount hygroSensor
      (sampleStore, [])
    = (Some (Some (NewCommonEdgeXWrapper (notFound "device profile"))),
       (sampleStore, [] ++ pre ++ [CallUpdateDeviceProfile hygroSensor]))
    /\ forall x, In x pre ->
         x = CallCheckResourceCapacity hygroSensor \/ exists u, x = ValidateUnit u.
Proof.
  apply (UpdateDeviceProfile_replace_error memDB idDTO cfgOff sampleUoM memResourceCount
           hygroSensor sampleStore sampleStore (notFound "device profile") []
           (or_introl eq_refl) (or_introl (Z.le_refl 0))).
  reflexivity.
Defined.

(** Switching the log level to DEBUG keeps the bootstrap sections. *)
Lemma UpdateWritableFromRaw_keeps_bootstrap_witness :
  GetBootstrap debugConfiguration = GetBootstrap sampleConfiguration
  /\ GetLogLevel debugConfiguration = "DEBUG".
Proof.
  destruct (UpdateWritableFromRaw_keeps_bootstrap unit unit unit unit unit unit unit
              sampleConfiguration debugConfiguration
              (AnyWritableInfoPtr _ _ _ _ _ _ _ (Some debugWritable)) true eq_refl)
    as (Hb & _ & _ & Hw & _).
  split; [exact Hb |].
  destruct (Hw eq_refl) as (w & Hraw & Hlog & _).
  rewrite Hlog. injection Hraw as <-. reflexivity.
Defined.
